(** * Wallet risk evaluator: a shallow embedding of the three source variants

    The repository holds three near-duplicate implementations of one class,
    [WalletRiskEvaluator]:

    - [wallet-core/proxy_resolver.py]: configurable, first-match-wins rule
      cascade over sanitised [Tx] records, early exit at [max_score];
    - [wallet-core/oracle_insight.py]: fixed constants, additive rules
      (large outbound, unknown destination, high frequency, blacklist);
    - [wallet-core/python/ai/bot_detector.py]: fixed constants, cascade,
      direct indexing of the input dictionaries.

    Each variant lives in a module of its own below.

    Modelling choices shared by the three modules:
    - Python [int] is [Z] (unbounded);
    - a number (an [int], a finite [float], a [Fraction]) is the rational
      [Q] it denotes, and [float(x)] is [py_float]: the nearest binary64
      value, ties to even, or [OverflowError] beyond the range of binary64;
      the special values [inf] and [nan] are not modelled;
    - a Python [str] is a [string] whose characters are read as code points
      below 256;
    - a [datetime] is its number of microseconds since [datetime.min], so
      that [abs((a - b).total_seconds()) < 60] is [|a - b| < 60_000_000];
    - an input dictionary is a record of the four keys the code reads, each
      absent ([None]) or present with a value of the type the code expects. *)

From Stdlib Require Import ZArith QArith List String Ascii Bool Lia.
From Stdlib Require Import Permutation DecimalString DecimalNat Qreduction.
Import ListNotations.

Local Open Scope string_scope.
Local Open Scope Z_scope.

(** ** Python values shared by the variants *)

(** The input dictionary of one transaction. *)
Record TxDict := mkTxDict {
  d_amount : option Q;
  d_type : option string;
  d_destination : option string;
  d_timestamp : option Z
}.

(** The dictionary [{}]. *)
Definition empty_dict : TxDict := mkTxDict None None None None.

(** [d.get(key, dflt)] *)
Definition get {A : Type} (field : option A) (dflt : A) : A :=
  match field with
  | Some v => v
  | None => dflt
  end.

(** [a > b] on numbers. *)
Definition Qgtb (a b : Q) : bool := negb (Qle_bool a b).

(** [a == b] where [a] may be [None] (a missing key read with [.get(key)]). *)
Definition opt_str_eqb (a : option string) (b : string) : bool :=
  match a with
  | Some s => String.eqb s b
  | None => false
  end.

(** [str.lower()] on one code point below 256: the ASCII capitals and the
    Latin-1 capitals (all of 0xC0..0xDE but the multiplication sign 0xD7)
    move up by 32. *)
Definition lower_char (c : ascii) : ascii :=
  let n := N_of_ascii c in
  if ((65 <=? n) && (n <=? 90))%N
     || ((192 <=? n) && (n <=? 222) && negb (n =? 215))%N
  then ascii_of_N (n + 32)
  else c.

Fixpoint lower (s : string) : string :=
  match s with
  | EmptyString => EmptyString
  | String c s' => String (lower_char c) (lower s')
  end.

(** [s.startswith(p)] *)
Definition startswith (s p : string) : bool := String.prefix p s.

(** Sum of a list of integers. *)
Fixpoint sumZ (l : list Z) : Z :=
  match l with
  | [] => 0
  | x :: l' => x + sumZ l'
  end.

(** ** Exceptions

    What a call may raise. [KeyError key] is what [d[key]] raises on a
    dictionary without [key]; [OverflowError] is what [float(x)] raises on
    a number too large for binary64, and what adding a [timedelta] raises
    when the result leaves the range of [datetime].
    [InvalidConfiguration] is named by the specification only: no
    statement of the source raises it. *)
Inductive exn :=
| KeyError (key : string)
| InvalidConfiguration
| OverflowError.

Inductive result (A : Type) :=
| Ok (a : A)
| Raise (e : exn).
Arguments Ok {A} a.
Arguments Raise {A} e.

Definition bind {A B : Type} (r : result A) (k : A -> result B) : result B :=
  match r with
  | Ok a => k a
  | Raise e => Raise e
  end.

Notation "x <- r ;; k" := (bind r (fun x => k))
  (at level 61, r at next level, right associativity).

(** [d[key]] *)
Definition getitem {A : Type} (field : option A) (key : string) : result A :=
  match field with
  | Some v => Ok v
  | None => Raise (KeyError key)
  end.

(** ** [float(x)]

    The conversion of a number to binary64: 53 bits of precision, exponents
    of the last bit from -1074 to 971, round to nearest with ties to even. *)

(** The integer nearest to [n / d] for [n >= 0] and [d > 0], ties to the
    even one. *)
Definition round_half_even (n d : Z) : Z :=
  let q := n / d in
  match 2 * (n mod d) ?= d with
  | Lt => q
  | Gt => q + 1
  | Eq => if Z.even q then q else q + 1
  end.

(** The [k] with [2^k <= n / d < 2^(k+1)], for [n, d > 0]. *)
Definition binade (n d : Z) : Z :=
  let k := Z.log2 n - Z.log2 d in
  if (if 0 <=? k then d * 2 ^ k <=? n else d <=? n * 2 ^ (- k))
  then k else k - 1.

(** [(m, e)] such that [m * 2^e] is the binary64 value nearest to [n / d]:
    [e] is the exponent of the last bit kept, not below that of the
    subnormal numbers. *)
Definition float_magnitude (n d : Z) : Z * Z :=
  let e := Z.max (binade n d - 52) (-1074) in
  let m := if 0 <=? e then round_half_even n (d * 2 ^ e)
           else round_half_even (n * 2 ^ (- e)) d in
  (m, e).

(** [float(x)]: the value is returned in lowest terms; a magnitude that
    rounds to [2^1024] or more raises [OverflowError]. *)
Definition py_float (x : Q) : result Q :=
  let x := Qred x in
  let n := Z.abs (Qnum x) in
  if n =? 0 then Ok 0%Q
  else
    let (m, e) := float_magnitude n (Zpos (Qden x)) in
    if 0 <=? e
    then if 2 ^ 1024 <=? m * 2 ^ e then Raise OverflowError
         else Ok (Qred ((Z.sgn (Qnum x) * (m * 2 ^ e)) # 1))
    else Ok (Qred ((Z.sgn (Qnum x) * m) # Z.to_pos (2 ^ (- e)))).

(** ** Lower case, in words

    [is_capital c]: [c] is one of [A]..[Z] or one of the Latin-1 capitals
    (0xC0..0xDE without the multiplication sign 0xD7). *)
Definition is_capital (c : ascii) : bool :=
  let n := N_of_ascii c in
  ((65 <=? n) && (n <=? 90) || (192 <=? n) && (n <=? 222) && negb (n =? 215))%N.

(** [c'] is what lowering makes of [c]: 32 code points above a capital,
    any other character itself. *)
Definition lowered_char (c c' : ascii) : bool :=
  if is_capital c then (N_of_ascii c' =? N_of_ascii c + 32)%N
  else Ascii.eqb c' c.

(** [s'] is [s] lowered: the same length, character by character. *)
Fixpoint lowered (s s' : string) : bool :=
  match s, s' with
  | EmptyString, EmptyString => true
  | String c r, String c' r' => lowered_char c c' && lowered r r'
  | _, _ => false
  end.

(** No character of [s] is a capital. *)
Fixpoint no_capital (s : string) : bool :=
  match s with
  | EmptyString => true
  | String c r => negb (is_capital c) && no_capital r
  end.

(** [s] spells the word written in small letters as [small] and in
    capitals as [capital], each letter in either case. *)
Fixpoint spelled (small capital s : string) : bool :=
  match small, capital, s with
  | EmptyString, EmptyString, EmptyString => true
  | String a small', String b capital', String c s' =>
      (Ascii.eqb c a || Ascii.eqb c b) && spelled small' capital' s'
  | _, _, _ => false
  end.

(** ** [wallet-core/proxy_resolver.py] *)

Module ProxyResolver.

(** [@dataclass(frozen=True) class Tx] *)
Record Tx := mkTx {
  amount : Q;
  type : string;
  destination : string
}.

(** The keyword arguments of [__init__]. *)
Record Config := mkConfig {
  cfg_large_out_threshold : Q;
  cfg_score_large_out : Z;
  cfg_score_unknown_dest : Z;
  cfg_score_baseline : Z;
  cfg_max_score : Z
}.

(** The defaults of the keyword arguments. *)
Definition default_config : Config :=
  mkConfig (10000 # 1) 20 15 5 100.

(** The state of an instance after [__init__]. *)
Record WalletRiskEvaluator := mkEvaluator {
  large_out_threshold : Q;
  score_large_out : Z;
  score_unknown_dest : Z;
  score_baseline : Z;
  max_score : Z;
  transactions : list Tx
}.

(** The body of the sanitising loop of [__init__]:
    [Tx(amount=float(t.get("amount", 0.0)),
        type=str(t.get("type", "")).lower(),
        destination=str(t.get("destination", "")))];
    [str] is the identity on strings. *)
Definition sanitize (t : TxDict) : result Tx :=
  a <- py_float (get (d_amount t) 0%Q) ;;
  Ok (mkTx a (lower (get (d_type t) "")) (get (d_destination t) "")).

(** The sanitising loop: the transactions in order, up to the first one
    whose conversion raises. *)
Fixpoint sanitize_all (txs : list TxDict) : result (list Tx) :=
  match txs with
  | [] => Ok []
  | t :: rest =>
      tx <- sanitize t ;;
      txs' <- sanitize_all rest ;;
      Ok (tx :: txs')
  end.

(** [WalletRiskEvaluator.__init__]: the threshold goes through [float],
    the scores and [max_score] through [int] (the identity on integers),
    then the transactions are sanitised in order. No configuration is
    tested. *)
Definition __init__ (txs : list TxDict) (cfg : Config)
  : result WalletRiskEvaluator :=
  threshold <- py_float (cfg_large_out_threshold cfg) ;;
  transactions <- sanitize_all txs ;;
  Ok (mkEvaluator threshold
                  (cfg_score_large_out cfg)
                  (cfg_score_unknown_dest cfg)
                  (cfg_score_baseline cfg)
                  (cfg_max_score cfg)
                  transactions).

(** *** The pattern [re.compile(r"^unknown(?:_|$)", re.IGNORECASE)] *)

(** One literal character of the pattern against one character of the
    subject, ignoring case. Among the code points below 256 a letter of
    [unknown] matches its two ASCII cases only (the Kelvin sign, which
    Python also accepts for [k], lies above). *)
Definition char_matches_ci (p c : ascii) : bool :=
  Ascii.eqb (lower_char p) (lower_char c).

(** The literal part of the pattern: consumes [lit] at the start of [s] and
    returns the rest of [s], or [None] when [s] does not start with it. *)
Fixpoint match_literal_ci (lit s : string) : option string :=
  match lit with
  | EmptyString => Some s
  | String p lit' =>
      match s with
      | EmptyString => None
      | String c s' =>
          if char_matches_ci p c then match_literal_ci lit' s' else None
      end
  end.

Definition newline : ascii := ascii_of_N 10.

(** The group [(?:_|$)] at the current position: an underscore, or the end
    of the subject; without [re.MULTILINE], [$] also matches just before a
    newline that ends the subject. *)
Definition underscore_or_end (rest : string) : bool :=
  match rest with
  | EmptyString => true
  | String c rest' =>
      Ascii.eqb c "_"%char
      || (Ascii.eqb c newline && String.eqb rest' EmptyString)
  end.

(** [self._unknown_re.match(s)], as a truth value. *)
Definition _unknown_re_match (s : string) : bool :=
  match match_literal_ci "unknown" s with
  | Some rest => underscore_or_end rest
  | None => false
  end.

(** *** Scoring *)

Definition is_large_out (ev : WalletRiskEvaluator) (tx : Tx) : bool :=
  String.eqb (type tx) "out" && Qgtb (amount tx) (large_out_threshold ev).

(** [_score_tx]: the score of one transaction and the reason tag. *)
Definition _score_tx (ev : WalletRiskEvaluator) (tx : Tx) : Z * string :=
  if is_large_out ev tx then (score_large_out ev, "large_out")
  else if _unknown_re_match (destination tx)
       then (score_unknown_dest ev, "unknown_destination")
       else (score_baseline ev, "baseline").

Definition _evaluate_tx (ev : WalletRiskEvaluator) (tx : Tx) : Z :=
  fst (_score_tx ev tx).

(** The loop of [evaluate], started with running total [total] on the
    transactions still to visit. *)
Fixpoint evaluate_loop (ev : WalletRiskEvaluator) (total : Z) (txs : list Tx)
  : Z :=
  match txs with
  | [] => Z.min (max_score ev) total
  | tx :: rest =>
      let total' := total + _evaluate_tx ev tx in
      if max_score ev <=? total' then max_score ev
      else evaluate_loop ev total' rest
  end.

Definition evaluate (ev : WalletRiskEvaluator) : Z :=
  evaluate_loop ev 0 (transactions ev).

Definition detail : Type := Tx * Z * string.

(** The loop of [evaluate_detailed], with the running total and the details
    appended so far. *)
Fixpoint evaluate_detailed_loop (ev : WalletRiskEvaluator) (total : Z)
    (details : list detail) (txs : list Tx) : Z * list detail :=
  match txs with
  | [] => (Z.min (max_score ev) total, details)
  | tx :: rest =>
      let '(s, why) := _score_tx ev tx in
      let details' := (details ++ [(tx, s, why)])%list in
      let total' := total + s in
      if max_score ev <=? total' then (max_score ev, details')
      else evaluate_detailed_loop ev total' details' rest
  end.

Definition evaluate_detailed (ev : WalletRiskEvaluator) : Z * list detail :=
  evaluate_detailed_loop ev 0 [] (transactions ev).

(** An evaluator that holds the numbers of a configuration as they are,
    and the given transactions: the state [__init__] reaches when [float]
    changes neither the threshold nor an amount. *)
Definition evaluator_of (cfg : Config) (txs : list Tx) : WalletRiskEvaluator :=
  mkEvaluator (cfg_large_out_threshold cfg)
              (cfg_score_large_out cfg)
              (cfg_score_unknown_dest cfg)
              (cfg_score_baseline cfg)
              (cfg_max_score cfg)
              txs.

(** The scores of all transactions, in order, with no early exit. *)
Definition all_scores (ev : WalletRiskEvaluator) : list Z :=
  map (_evaluate_tx ev) (transactions ev).

(** The entry [evaluate_detailed] appends for [tx], and its score. *)
Definition detail_of (ev : WalletRiskEvaluator) (tx : Tx) : detail :=
  (tx, fst (_score_tx ev tx), snd (_score_tx ev tx)).

Definition detail_score (d : detail) : Z := snd (fst d).

(** The unknown-destination pattern in words: the text [unknown] in any
    mix of cases, followed by an underscore, by the end of the string, or
    by one newline that ends the string. *)
Definition unknown_pattern (s : string) : Prop :=
  exists pre rest : string,
    s = (pre ++ rest)%string /\ lower pre = "unknown"
    /\ (rest = "" \/ rest = String newline "" \/
        exists r, rest = String "_"%char r).

(** All three rule scores are non-negative. *)
Definition nonneg_scores (ev : WalletRiskEvaluator) : Prop :=
  0 <= score_large_out ev /\ 0 <= score_unknown_dest ev
  /\ 0 <= score_baseline ev.


(** Transactions of the scenarios of the specification. *)
Definition tx_large_out : Tx := mkTx (12000 # 1) "out" "known_wallet".
Definition tx_unknown : Tx := mkTx (300 # 1) "out" "unknown_wallet".
Definition tx_plain : Tx := mkTx (500 # 1) "in" "friend_wallet".

(** The default configuration with one keyword argument changed. *)
Definition config_negative_baseline : Config :=
  mkConfig (10000 # 1) 20 15 (-5) 100.
Definition config_negative_max : Config :=
  mkConfig (10000 # 1) 20 15 5 (-1).

(** The first rule of the cascade, as a proposition. *)
Definition large_outbound (ev : WalletRiskEvaluator) (tx : Tx) : Prop :=
  type tx = "out" /\ (large_out_threshold ev < amount tx)%Q.

(** Six large outbound transfers. *)
Definition six_large_out : list Tx := repeat tx_large_out 6.

(** The unknown-destination pattern with its letters written out: the
    seven letters of [unknown], each small or capital, followed by an
    underscore, by the end of the string, or by one newline that ends the
    string. *)
Definition unknown_pattern_letters (s : string) : Prop :=
  exists pre rest : string,
    s = (pre ++ rest)%string /\ spelled "unknown" "UNKNOWN" pre = true
    /\ (rest = "" \/ rest = String newline "" \/
        exists r, rest = String "_"%char r).

(** The default configuration with [score_large_out=1], and with
    [score_baseline=0]. *)
Definition config_small_large_out : Config :=
  mkConfig (10000 # 1) 1 15 5 100.
Definition config_zero_baseline : Config :=
  mkConfig (10000 # 1) 20 15 0 100.

(** An amount that is a Python [int], or a number [float] leaves as it
    is (a finite [float]). *)
Definition int_or_float (x : Q) : Prop :=
  (exists z, x == inject_Z z)%Q \/ (exists a, py_float x = Ok a /\ a == x)%Q.

End ProxyResolver.

(** ** [wallet-core/oracle_insight.py] *)

Module OracleInsight.

(** A dictionary object of the list handed to [__init__]: [oid] is its
    identity (what [is] compares), [fields] its contents. The list holds
    references, so one object may occur at several positions. *)
Record TxObj := mkTxObj {
  oid : nat;
  fields : TxDict
}.

(** [self.transactions = transactions]: the list is kept as it is. *)
Record WalletRiskEvaluator := mkEvaluator {
  transactions : list TxObj
}.

Definition __init__ (txs : list TxObj) : result WalletRiskEvaluator :=
  Ok (mkEvaluator txs).

(** [a is not b] *)
Definition is_not (a b : TxObj) : bool := negb (Nat.eqb (oid a) (oid b)).

(** [abs((tx_time - other_time).total_seconds()) < 60], in microseconds. *)
Definition within_minute (tx_time other_time : Z) : bool :=
  Z.abs (tx_time - other_time) <? 60000000.

(** The loop of [_is_high_frequency]: [count] after visiting [others]. *)
Fixpoint count_loop (tx : TxObj) (tx_time : Z) (count : Z)
    (others : list TxObj) : Z :=
  match others with
  | [] => count
  | other :: rest =>
      let count' :=
        if is_not other tx then
          match d_timestamp (fields other) with
          | Some other_time =>
              if within_minute tx_time other_time then count + 1 else count
          | None => count
          end
        else count in
      count_loop tx tx_time count' rest
  end.

Definition _is_high_frequency (ev : WalletRiskEvaluator) (tx : TxObj) : bool :=
  match d_timestamp (fields tx) with
  | None => false
  | Some tx_time => 3 <=? count_loop tx tx_time 0 (transactions ev)
  end.

Definition blacklist : list string :=
  ["unknown_wallet"; "suspicious_address"; "scam_target"].

(** [destination in blacklist] *)
Definition _is_blacklisted (destination : string) : bool :=
  existsb (String.eqb destination) blacklist.

(** The four additive rules, in the order of the source. *)
Definition rule1 (tx : TxObj) : bool :=
  Qgtb (get (d_amount (fields tx)) 0%Q) (10000 # 1)
  && opt_str_eqb (d_type (fields tx)) "out".

Definition rule2 (tx : TxObj) : bool :=
  startswith (get (d_destination (fields tx)) "") "unknown_".

Definition rule4 (tx : TxObj) : bool :=
  _is_blacklisted (get (d_destination (fields tx)) "").

(** [risk_points] before the final [or 5]. *)
Definition risk_points (ev : WalletRiskEvaluator) (tx : TxObj) : Z :=
  let p0 := 0 in
  let p1 := if rule1 tx then p0 + 20 else p0 in
  let p2 := if rule2 tx then p1 + 15 else p1 in
  let p3 := if _is_high_frequency ev tx then p2 + 10 else p2 in
  let p4 := if rule4 tx then p3 + 25 else p3 in
  p4.

(** [_evaluate_tx]: [risk_points or 5]. *)
Definition _evaluate_tx (ev : WalletRiskEvaluator) (tx : TxObj) : Z :=
  let p := risk_points ev tx in
  if p =? 0 then 5 else p.

(** The loop of [evaluate]: [score] after visiting [txs]. *)
Fixpoint score_loop (ev : WalletRiskEvaluator) (score : Z) (txs : list TxObj)
  : Z :=
  match txs with
  | [] => score
  | tx :: rest => score_loop ev (score + _evaluate_tx ev tx) rest
  end.

Definition evaluate (ev : WalletRiskEvaluator) : Z :=
  Z.min 100 (score_loop ev 0 (transactions ev)).

(** The scores of all transactions of the list, in order. *)
Definition all_scores (ev : WalletRiskEvaluator) : list Z :=
  map (_evaluate_tx ev) (transactions ev).

(** The count of the high-frequency rule in the words of the
    specification: the entries of the list that are another object than
    [tx] and carry a timestamp less than a minute away from [t]. *)
Definition counts_for (tx : TxObj) (t : Z) (other : TxObj) : bool :=
  is_not other tx
  && match d_timestamp (fields other) with
     | Some t' => within_minute t t'
     | None => false
     end.

Definition others_within_minute (txs : list TxObj) (tx : TxObj) (t : Z) : nat :=
  List.length (List.filter (counts_for tx t) txs).

(** The same in the words of the specification alone, without the helper
    functions of the code: [o] is another object than [tx] and carries a
    timestamp that differs from [t] by less than 60 seconds (60 000 000
    microseconds) in absolute value. *)
Definition other_within_60s (tx : TxObj) (t : Z) (o : TxObj) : Prop :=
  oid o <> oid tx
  /\ exists t', d_timestamp (fields o) = Some t'
                /\ Z.abs (t - t') < 60 * 1000000.

Definition other_within_60s_dec (tx : TxObj) (t : Z) (o : TxObj) : bool :=
  match d_timestamp (fields o) with
  | Some t' =>
      if Nat.eq_dec (oid o) (oid tx) then false
      else (- (60 * 1000000) <? t - t') && (t - t' <? 60 * 1000000)
  | None => false
  end.

(** How many entries of the list are such. *)
Definition count_others_within_60s (txs : list TxObj) (tx : TxObj) (t : Z)
  : nat :=
  List.length (List.filter (other_within_60s_dec tx t) txs).

(** One dictionary object with the timestamp [t], at all [n] positions of
    the list. *)
Definition aliased_batch (t : Z) (n : nat) : list TxObj :=
  repeat (mkTxObj 0 (mkTxDict None None None (Some t))) n.

Definition has_timestamp (o : TxObj) : bool :=
  match d_timestamp (fields o) with
  | Some _ => true
  | None => false
  end.

(** The points of the three rules that look at [tx] alone. *)
Definition base_points (tx : TxObj) : Z :=
  (if rule1 tx then 20 else 0) + (if rule2 tx then 15 else 0)
  + (if rule4 tx then 25 else 0).

(** The transaction of scenario B as an input dictionary. *)
Definition obj_unknown : TxObj :=
  mkTxObj 0 (mkTxDict (Some (300 # 1)) (Some "out") (Some "unknown_wallet") None).

(** [n] distinct dictionary objects that all carry the timestamp [t]. *)
Definition same_time_batch (t : Z) (n : nat) : list TxObj :=
  map (fun i => mkTxObj i (mkTxDict None None None (Some t))) (seq 0 n).

End OracleInsight.

(** ** [wallet-core/python/ai/bot_detector.py] *)

Module BotDetector.

Record WalletRiskEvaluator := mkEvaluator {
  transactions : list TxDict
}.

Definition __init__ (txs : list TxDict) : result WalletRiskEvaluator :=
  Ok (mkEvaluator txs).

(** [_evaluate_tx]: the keys are read with [tx[key]], in the order in which
    Python evaluates them ([and] does not read ['type'] when the amount
    test is false). *)
Definition _evaluate_tx (tx : TxDict) : result Z :=
  a <- getitem (d_amount tx) "amount" ;;
  large <- (if Qgtb a (10000 # 1)
            then (ty <- getitem (d_type tx) "type" ;; Ok (String.eqb ty "out"))
            else Ok false) ;;
  if (large : bool) then Ok 20
  else
    d <- getitem (d_destination tx) "destination" ;;
    if startswith d "unknown_" then Ok 15 else Ok 5.

(** The loop of [evaluate]: [score] after visiting [txs]. *)
Fixpoint score_loop (score : Z) (txs : list TxDict) : result Z :=
  match txs with
  | [] => Ok score
  | tx :: rest =>
      s <- _evaluate_tx tx ;;
      score_loop (score + s) rest
  end.

Definition evaluate (ev : WalletRiskEvaluator) : result Z :=
  score <- score_loop 0 (transactions ev) ;;
  Ok (Z.min 100 score).

(** A dictionary that has the three keys the code reads. *)
Definition complete (tx : TxDict) : bool :=
  match d_amount tx, d_type tx, d_destination tx with
  | Some _, Some _, Some _ => true
  | _, _, _ => false
  end.

End BotDetector.

(** ** The rest of the three files

    The sample-data generators, the demo entry points and the generated
    classes, and the definitions the properties relating the variants are
    stated with. *)

(** *** The [random] module

    The generators draw from Python's pseudo-random generator. Its
    algorithm is not part of the repository: a generator is a state type
    with the three operations the code calls, each returning the drawn
    value and the next state. *)
Record PyRandom := mkPyRandom {
  rng : Type;
  (** [random.Random(seed)] *)
  seeded : Z -> rng;
  (** [r.randint(a, b)] *)
  randint : rng -> Z -> Z -> Z * rng;
  (** [r.choice(seq)] on a list of strings *)
  choice : rng -> list string -> string * rng
}.

(** What the documentation of [random] promises of the two draws. *)
Definition random_contract (R : PyRandom) : Prop :=
  (forall g a b, a <= b -> a <= fst (randint R g a b) <= b)
  /\ (forall g l, l <> [] -> In (fst (choice R g l)) l).

(** A generator that always draws the smallest number and the first
    element. *)
Definition first_choice_random : PyRandom :=
  mkPyRandom unit (fun _ => tt)
             (fun g a _ => (a, g))
             (fun g l => (hd "" l, g)).

(** A generator that breaks the promise of [randint]: it always draws
    [10^400]. *)
Definition huge_draw_random : PyRandom :=
  mkPyRandom unit (fun _ => tt)
             (fun g _ _ => (10 ^ 400, g))
             (fun g l => (hd "" l, g)).

(** *** [proxy_resolver.py]: [generate_sample_data] and the demo *)

Module ProxyResolverDemo.

(** The list comprehension of [generate_sample_data]: [n] records, the
    three draws of a record in the order the dictionary display evaluates
    them. *)
Fixpoint sample_loop (R : PyRandom) (r : rng R) (n : nat) : list TxDict :=
  match n with
  | O => []
  | S n' =>
      let (a, r1) := randint R r 100 20000 in
      let (ty, r2) := choice R r1 ["in"; "out"] in
      let (d, r3) :=
        choice R r2 ["known_wallet"; "unknown_wallet"; "unknown_abc"] in
      mkTxDict (Some (inject_Z a)) (Some ty) (Some d) None
      :: sample_loop R r3 n'
  end.

(** [generate_sample_data(n, seed)]; [range(n)] is empty for [n <= 0]. *)
Definition generate_sample_data (R : PyRandom) (n seed : Z) : list TxDict :=
  sample_loop R (seeded R seed) (Z.to_nat n).

(** The score the demo prints:
    [WalletRiskEvaluator(generate_sample_data()).evaluate()]. *)
Definition main (R : PyRandom) : result Z :=
  ev <- ProxyResolver.__init__ (generate_sample_data R 10 42)
                               ProxyResolver.default_config ;;
  Ok (ProxyResolver.evaluate ev).

(** Two input dictionaries that differ at most in the case of their type
    and in leaving out a key instead of giving its default. *)
Definition same_after_defaults (t t' : TxDict) : Prop :=
  (get (d_amount t) 0 == get (d_amount t') 0)%Q
  /\ lower (get (d_type t) "") = lower (get (d_type t') "")
  /\ get (d_destination t) "" = get (d_destination t') "".

(** *** The generated classes *)

(** What a generated method returns. *)
Inductive pyvalue :=
| PyInt (z : Z)
| PyStr (s : string).

(** A function object made by [_make_method] or [_make_run]: its
    [__name__] and what calling it on an instance returns. *)
Record PyFunction := mkPyFunction {
  f_name : string;
  f_call : pyvalue
}.

(** A class object made by [type(name, (), attrs)]. *)
Record PyClass := mkPyClass {
  c_name : string;
  c_attrs : list (string * PyFunction)
}.

(** What the two loops bind in the module's dictionary: the loop variable,
    the function made by a [def] statement (known by its name), the
    dictionary [attrs], and classes. *)
Inductive pyobject :=
| ObjInt (i : nat)
| ObjDef (name : string)
| ObjDict (attrs : list (string * PyFunction))
| ObjClass (c : PyClass).

(** A dictionary with string keys: the bindings, the latest first. *)
Fixpoint lookup {A : Type} (k : string) (d : list (string * A)) : option A :=
  match d with
  | [] => None
  | (k', v) :: d' => if String.eqb k k' then Some v else lookup k d'
  end.

(** [d[k] = v] *)
Definition setitem {A : Type} (k : string) (v : A) (d : list (string * A))
  : list (string * A) := (k, v) :: d.

(** [str(i)] for [i >= 0], as in an f-string. *)
Definition str_of_nat (i : nat) : string :=
  DecimalString.NilEmpty.string_of_uint (Nat.to_uint i).

(** [_make_method(ii)] and [_make_run(ii)] *)
Definition _make_method (ii : nat) : PyFunction :=
  mkPyFunction ("method_" ++ str_of_nat ii) (PyInt (Z.of_nat ii * 2)).

Definition _make_run (ii : nat) : PyFunction :=
  mkPyFunction ("run_" ++ str_of_nat ii) (PyStr ("module-" ++ str_of_nat ii)).

(** One turn of the first loop, statement by statement: the loop variable
    [i], the [def] of [_make_method], [attrs], [cls], and the binding of
    the class under its [__name__]. All five are module-level names. *)
Definition define_simulated (i : nat) (globals : list (string * pyobject))
  : list (string * pyobject) :=
  let g1 := setitem "i" (ObjInt i) globals in
  let g2 := setitem "_make_method" (ObjDef "_make_method") g1 in
  let attrs := setitem ("method_" ++ str_of_nat i) (_make_method i) [] in
  let g3 := setitem "attrs" (ObjDict attrs) g2 in
  let cls := mkPyClass ("SimulatedClass" ++ str_of_nat i) attrs in
  let g4 := setitem "cls" (ObjClass cls) g3 in
  setitem (c_name cls) (ObjClass cls) g4.

(** One turn of the second loop. *)
Definition define_module_logic (i : nat) (globals : list (string * pyobject))
  : list (string * pyobject) :=
  let g1 := setitem "i" (ObjInt i) globals in
  let g2 := setitem "_make_run" (ObjDef "_make_run") g1 in
  let attrs := setitem ("run_" ++ str_of_nat i) (_make_run i) [] in
  let g3 := setitem "attrs" (ObjDict attrs) g2 in
  let cls := mkPyClass ("ModuleLogic" ++ str_of_nat i) attrs in
  let g4 := setitem "cls" (ObjClass cls) g3 in
  setitem (c_name cls) (ObjClass cls) g4.

(** The two loops, [for i in range(30)] and [for i in range(30, 60)], run
    on the module's dictionary [globals]. *)
Definition generate_classes (globals : list (string * pyobject))
  : list (string * pyobject) :=
  fold_left (fun g i => define_module_logic i g) (seq 30 30)
            (fold_left (fun g i => define_simulated i g) (seq 0 30) globals).

(** [globals()[cls]().attr()]: the class bound to [cls] is instantiated and
    its attribute [attr] is called. *)
Definition call_method (globals : list (string * pyobject)) (cls attr : string)
  : option pyvalue :=
  match lookup cls globals with
  | Some (ObjClass c) =>
      match lookup attr (c_attrs c) with
      | Some f => Some (f_call f)
      | None => None
      end
  | _ => None
  end.

(** The names the loops bind besides the classes. *)
Definition loop_names : list string :=
  ["i"; "_make_method"; "_make_run"; "attrs"; "cls"].

End ProxyResolverDemo.

(** *** [oracle_insight.py]: [sample_transactions] and the demo *)

Module OracleInsightDemo.

(** [timedelta(seconds=s)] in microseconds. *)
Definition seconds (s : Z) : Z := s * 1000000.

(** The microseconds from [datetime.min] (year 1) to the end of
    [datetime.max] (year 9999): 3652059 days. A [datetime] is a number
    from 0 to this one, excluded. *)
Definition datetime_end : Z := 3652059 * 86400 * 1000000.

Definition is_datetime (t : Z) : bool := (0 <=? t) && (t <? datetime_end).

(** [t + delta] on a [datetime] and a [timedelta]: a result outside the
    range raises [OverflowError]. *)
Definition add_timedelta (t delta : Z) : result Z :=
  if is_datetime (t + delta) then Ok (t + delta) else Raise OverflowError.

(** The list display of [sample_transactions], once the six timestamps
    are known: six new dictionary objects. *)
Definition sample_display (t0 t1 t2 t3 t4 t5 : Z) : list OracleInsight.TxObj :=
  [ OracleInsight.mkTxObj 0
      (mkTxDict (Some (12000 # 1)) (Some "out") (Some "known_wallet")
                (Some t0));
    OracleInsight.mkTxObj 1
      (mkTxDict (Some (500 # 1)) (Some "in") (Some "friend_wallet")
                (Some t1));
    OracleInsight.mkTxObj 2
      (mkTxDict (Some (300 # 1)) (Some "out") (Some "unknown_wallet")
                (Some t2));
    OracleInsight.mkTxObj 3
      (mkTxDict (Some (15000 # 1)) (Some "out") (Some "suspicious_address")
                (Some t3));
    OracleInsight.mkTxObj 4
      (mkTxDict (Some (750 # 1)) (Some "in") (Some "known_wallet")
                (Some t4));
    OracleInsight.mkTxObj 5
      (mkTxDict (Some (200 # 1)) (Some "out") (Some "scam_target")
                (Some t5)) ].

(** [sample_transactions()], with [base_time] the value of
    [datetime.now()]: the five additions are made in the order of the
    display. *)
Definition sample_transactions (base_time : Z)
  : result (list OracleInsight.TxObj) :=
  t1 <- add_timedelta base_time (seconds 5) ;;
  t2 <- add_timedelta base_time (seconds 10) ;;
  t3 <- add_timedelta base_time (seconds 20) ;;
  t4 <- add_timedelta base_time (seconds 40) ;;
  t5 <- add_timedelta base_time (seconds 55) ;;
  Ok (sample_display base_time t1 t2 t3 t4 t5).

(** The score the demo prints, or the exception that ends it. *)
Definition main (base_time : Z) : result Z :=
  data <- sample_transactions base_time ;;
  ev <- OracleInsight.__init__ data ;;
  Ok (OracleInsight.evaluate ev).

(** The same dictionary object with its timestamp, if any, moved by
    [delta]. *)
Definition shift_time (delta : Z) (o : OracleInsight.TxObj)
  : OracleInsight.TxObj :=
  OracleInsight.mkTxObj (OracleInsight.oid o)
    (mkTxDict (d_amount (OracleInsight.fields o))
              (d_type (OracleInsight.fields o))
              (d_destination (OracleInsight.fields o))
              (option_map (fun t => t + delta)
                          (d_timestamp (OracleInsight.fields o)))).

End OracleInsightDemo.

(** *** [bot_detector.py]: [generate_sample_data] and the demo *)

Module BotDetectorDemo.

(** The list comprehension of [generate_sample_data], drawing from the
    generator of the [random] module itself. *)
Fixpoint sample_loop (R : PyRandom) (r : rng R) (n : nat) : list TxDict :=
  match n with
  | O => []
  | S n' =>
      let (a, r1) := randint R r 100 20000 in
      let (ty, r2) := choice R r1 ["in"; "out"] in
      let (d, r3) := choice R r2 ["known_wallet"; "unknown_wallet"] in
      mkTxDict (Some (inject_Z a)) (Some ty) (Some d) None
      :: sample_loop R r3 n'
  end.

Definition generate_sample_data (R : PyRandom) (r : rng R) : list TxDict :=
  sample_loop R r 10.

(** The score the demo prints, or the exception that ends it. *)
Definition main (R : PyRandom) (r : rng R) : result Z :=
  ev <- BotDetector.__init__ (generate_sample_data R r) ;;
  BotDetector.evaluate ev.

End BotDetectorDemo.

(** * Properties of [float] and of lowering *)

Section FloatFacts.

Lemma Qred_inject_Z (z : Z) : Qred (inject_Z z) = inject_Z z.
Proof.
  unfold Qred, inject_Z.
  generalize (Z.ggcd_gcd z 1) (Z.ggcd_correct_divisors z 1).
  destruct (Z.ggcd z 1) as (g, (aa, bb)). simpl.
  intros Hg [Ha Hb]. rewrite Z.gcd_1_r in Hg. subst g.
  replace aa with z by lia. replace bb with 1 by lia. reflexivity.
Qed.

Lemma Qred_to_inject_Z (q : Q) (z : Z) : (q == inject_Z z)%Q -> Qred q = inject_Z z.
Proof.
  intros H. rewrite (Qred_complete _ _ H). apply Qred_inject_Z.
Qed.

Lemma round_half_even_1 (n : Z) : round_half_even n 1 = n.
Proof.
  unfold round_half_even. rewrite Z.mod_1_r, Z.div_1_r. reflexivity.
Qed.

Lemma round_half_even_ge (n d : Z) : n / d <= round_half_even n d.
Proof.
  unfold round_half_even.
  destruct (2 * (n mod d) ?= d); [destruct (Z.even (n / d))| |]; lia.
Qed.

Lemma binade_int (n : Z) : 0 < n -> binade n 1 = Z.log2 n.
Proof.
  intros Hn. unfold binade. change (Z.log2 1) with 0. rewrite Z.sub_0_r.
  pose proof (Z.log2_nonneg n) as Hk.
  destruct (Z.leb_spec 0 (Z.log2 n)); [|lia].
  pose proof (Z.log2_spec n Hn) as [Hlo _].
  destruct (Z.leb_spec (1 * 2 ^ Z.log2 n) n); [reflexivity | lia].
Qed.

(** [float] is exact on the integers of magnitude up to [2^53]. *)
Lemma py_float_int_exact (z : Z) :
  Z.abs z <= 2 ^ 53 -> py_float (inject_Z z) = Ok (inject_Z z).
Proof.
  intros Hz. unfold py_float. rewrite Qred_inject_Z.
  cbn [Qnum Qden inject_Z].
  destruct (Z.eqb_spec (Z.abs z) 0) as [E | Hne].
  { assert (z = 0) by lia. subst. reflexivity. }
  assert (Hn : 0 < Z.abs z) by lia.
  unfold float_magnitude. rewrite (binade_int _ Hn).
  pose proof (Z.log2_spec _ Hn) as [Hlo Hhi].
  assert (Hk : 0 <= Z.log2 (Z.abs z) <= 53).
  { split; [apply Z.log2_nonneg|].
    rewrite <- (Z.log2_pow2 53) by lia. now apply Z.log2_le_mono. }
  set (k := Z.log2 (Z.abs z)) in *.
  rewrite Z.max_l by lia.
  destruct (Z.leb_spec 0 (k - 52)) as [Hge | Hlt].
  - assert (Hk' : k = 52 \/ k = 53) by lia.
    destruct Hk' as [-> | ->].
    + change (52 - 52) with 0. change (1 * 2 ^ 0) with 1.
      rewrite round_half_even_1.
      destruct (Z.leb_spec (2 ^ 1024) (Z.abs z * 2 ^ 0)) as [Hov|_].
      { change (2 ^ 0) with 1 in Hov. assert (2 ^ 53 < 2 ^ 1024) by reflexivity. lia. }
      f_equal. apply Qred_to_inject_Z. unfold Qeq, inject_Z. simpl. lia.
    + assert (Habs : Z.abs z = 2 ^ 53) by (change (2 ^ 53) with (2^53) in *; lia).
      rewrite Habs. change (53 - 52) with 1.
      assert (Hr : round_half_even (2 ^ 53) (1 * 2 ^ 1) = 2 ^ 52) by reflexivity.
      rewrite Hr.
      destruct (Z.leb_spec (2 ^ 1024) (2 ^ 52 * 2 ^ 1)) as [Hov|_].
      { exfalso. revert Hov. apply Z.lt_nge. reflexivity. }
      f_equal. apply Qred_to_inject_Z. unfold Qeq, inject_Z. simpl.
      change (2 ^ 52 * 2 ^ 1) with (2 ^ 53). lia.
  - rewrite round_half_even_1.
    f_equal. apply Qred_to_inject_Z. unfold Qeq, inject_Z. cbn [Qnum Qden].
    rewrite Z2Pos.id by (apply Z.pow_pos_nonneg; lia). nia.
Qed.

(** [float] sees the number, not the way it is written. *)
Lemma py_float_compat (q q' : Q) : (q == q')%Q -> py_float q = py_float q'.
Proof.
  intros H. unfold py_float. now rewrite (Qred_complete _ _ H).
Qed.

(** [float] of an integer above [b] is above [b], for [b] below [2^53]. *)
Lemma py_float_int_above (z b : Z) (a : Q) :
  0 <= b < 2 ^ 53 -> b < z ->
  py_float (inject_Z z) = Ok a -> (inject_Z b < a)%Q.
Proof.
  intros Hb Hz Hf.
  destruct (Z.le_gt_cases z (2 ^ 53)) as [Hsmall | Hbig].
  - rewrite py_float_int_exact in Hf by lia. injection Hf as <-.
    unfold Qlt, inject_Z. simpl. lia.
  - revert Hf. unfold py_float. rewrite Qred_inject_Z.
    cbn [Qnum Qden inject_Z].
    assert (Habs : Z.abs z = z) by lia. rewrite Habs.
    destruct (Z.eqb_spec z 0) as [E|_]; [lia|].
    assert (Hn : 0 < z) by lia.
    unfold float_magnitude. rewrite (binade_int _ Hn).
    pose proof (Z.log2_spec _ Hn) as [Hlo _].
    assert (Hk : 53 <= Z.log2 z).
    { apply Z.log2_le_pow2; lia. }
    set (k := Z.log2 z) in *.
    rewrite Z.max_l by lia.
    destruct (Z.leb_spec 0 (k - 52)) as [_|]; [|lia].
    set (e := k - 52) in *.
    assert (He : 1 <= e) by (unfold e; lia).
    assert (Hpe : 0 < 2 ^ e) by (apply Z.pow_pos_nonneg; lia).
    assert (Hm : 2 ^ 52 <= round_half_even z (1 * 2 ^ e)).
    { etransitivity; [|apply round_half_even_ge].
      apply Z.div_le_lower_bound; [lia|].
      replace k with (e + 52) in Hlo by (unfold e; lia).
      rewrite Z.pow_add_r in Hlo by lia. lia. }
    set (m := round_half_even z (1 * 2 ^ e)) in *.
    destruct (2 ^ 1024 <=? m * 2 ^ e); [discriminate|].
    change (Z.sgn z * (m * 2 ^ e) # 1) with (inject_Z (Z.sgn z * (m * 2 ^ e))).
    rewrite Qred_inject_Z. intros Hf. injection Hf as <-.
    unfold Qlt, inject_Z. cbn [Qnum Qden].
    assert (Hsgn : Z.sgn z = 1) by (apply Z.sgn_pos; lia). rewrite Hsgn.
    assert (H2e : 2 <= 2 ^ e).
    { change 2 with (2 ^ 1) at 1. apply Z.pow_le_mono_r; lia. }
    nia.
Qed.

(** [float] on some numbers: ties go to the even neighbour, a fraction is
    rounded to 53 bits, and an integer of 401 digits is out of range. *)
Example py_float_tie :
  py_float (inject_Z (2 ^ 53 + 1)) = Ok (inject_Z (2 ^ 53))
  /\ py_float (inject_Z (2 ^ 53 + 3)) = Ok (inject_Z (2 ^ 53 + 4)).
Proof. split; vm_compute; reflexivity. Qed.

Example py_float_tenth :
  py_float (1 # 10) = Ok (3602879701896397 # 36028797018963968).
Proof. vm_compute. reflexivity. Qed.

Example py_float_out_of_range :
  py_float (inject_Z (10 ^ 400)) = Raise OverflowError
  /\ py_float (inject_Z (2 ^ 1024 - 2 ^ 970)) = Raise OverflowError
  /\ py_float (inject_Z (2 ^ 1024 - 2 ^ 970 - 1))
     = Ok (inject_Z (2 ^ 1024 - 2 ^ 971)).
Proof. repeat split; vm_compute; reflexivity. Qed.

Lemma py_float_raises (x : Q) (e : exn) :
  py_float x = Raise e -> e = OverflowError.
Proof.
  unfold py_float. destruct (Z.abs (Qnum (Qred x)) =? 0); [discriminate|].
  destruct (float_magnitude _ _) as [m ex].
  destruct (0 <=? ex); [|discriminate].
  destruct (2 ^ 1024 <=? m * 2 ^ ex); [|discriminate].
  intros H. now injection H as <-.
Qed.

Lemma lower_char_lowered (c : ascii) : lowered_char c (lower_char c) = true.
Proof. destruct c as [[] [] [] [] [] [] [] []]; reflexivity. Qed.

Lemma lower_char_no_capital (c : ascii) : is_capital (lower_char c) = false.
Proof. destruct c as [[] [] [] [] [] [] [] []]; reflexivity. Qed.

Lemma lower_lowered (s : string) : lowered s (lower s) = true.
Proof.
  induction s as [|c s IH]; simpl; [reflexivity|].
  now rewrite lower_char_lowered, IH.
Qed.

Lemma lower_no_capital (s : string) : no_capital (lower s) = true.
Proof.
  induction s as [|c s IH]; simpl; [reflexivity|].
  now rewrite lower_char_no_capital, IH.
Qed.

End FloatFacts.

(** * Properties of [wallet-core/proxy_resolver.py] *)

Section ProxyResolverFacts.
Import ProxyResolver.

(** ** The unknown-destination pattern *)

Lemma lower_char_idempotent (c : ascii) :
  lower_char (lower_char c) = lower_char c.
Proof.
  destruct c as [[] [] [] [] [] [] [] []]; reflexivity.
Qed.

Lemma match_literal_ci_sound (lit s rest : string) :
  lower lit = lit ->
  match_literal_ci lit s = Some rest ->
  exists pre, s = (pre ++ rest)%string /\ lower pre = lit.
Proof.
  revert s. induction lit as [|p lit IH]; intros s Hlit Hm; simpl in *.
  - exists ""%string. inversion Hm. auto.
  - destruct s as [|c s]; [discriminate|].
    injection Hlit as Hp Hlit'.
    unfold char_matches_ci in Hm. rewrite Hp in Hm.
    destruct (Ascii.eqb p (lower_char c)) eqn:E; [|discriminate].
    apply Ascii.eqb_eq in E.
    destruct (IH s Hlit' Hm) as (pre & -> & Hpre).
    exists (String c pre). simpl. rewrite Hpre, <- E. auto.
Qed.

Lemma match_literal_ci_complete (lit pre rest : string) :
  lower pre = lit ->
  match_literal_ci lit (pre ++ rest) = Some rest.
Proof.
  revert lit. induction pre as [|c pre IH]; intros lit <-; simpl.
  - reflexivity.
  - unfold char_matches_ci. rewrite lower_char_idempotent, Ascii.eqb_refl.
    now apply IH.
Qed.

Lemma underscore_or_end_spec (rest : string) :
  underscore_or_end rest = true <->
  (rest = "" \/ rest = String newline "" \/ exists r, rest = String "_"%char r).
Proof.
  destruct rest as [|c r]; simpl.
  - split; auto.
  - rewrite orb_true_iff, andb_true_iff, !Ascii.eqb_eq, String.eqb_eq. split.
    + intros [-> | [-> ->]]; eauto.
    + intros [H | [H | [r' H]]]; [discriminate | |]; inversion H; auto.
Qed.

(** The embedding of the compiled pattern accepts exactly the strings
    described by [unknown_pattern]. *)
Lemma _unknown_re_match_spec (s : string) :
  _unknown_re_match s = true <-> unknown_pattern s.
Proof.
  unfold _unknown_re_match, unknown_pattern. split.
  - destruct (match_literal_ci "unknown" s) as [rest|] eqn:E; [|discriminate].
    intros H. apply match_literal_ci_sound in E; [|reflexivity].
    destruct E as (pre & -> & Hpre). exists pre, rest.
    now rewrite <- underscore_or_end_spec.
  - intros (pre & rest & -> & Hpre & Hrest).
    rewrite (match_literal_ci_complete _ _ _ Hpre).
    now apply underscore_or_end_spec.
Qed.

(** ** The loops of [evaluate] and [evaluate_detailed] *)

Lemma _evaluate_tx_cases (ev : WalletRiskEvaluator) (tx : Tx) :
  _evaluate_tx ev tx = score_large_out ev
  \/ _evaluate_tx ev tx = score_unknown_dest ev
  \/ _evaluate_tx ev tx = score_baseline ev.
Proof.
  unfold _evaluate_tx, _score_tx.
  destruct (is_large_out ev tx); [auto|].
  destruct (_unknown_re_match (destination tx)); auto.
Qed.

Lemma _evaluate_tx_nonneg (ev : WalletRiskEvaluator) (tx : Tx) :
  nonneg_scores ev -> 0 <= _evaluate_tx ev tx.
Proof.
  intros (H1 & H2 & H3).
  destruct (_evaluate_tx_cases ev tx) as [-> | [-> | ->]]; assumption.
Qed.

Lemma sumZ_app (l1 l2 : list Z) : sumZ (l1 ++ l2) = sumZ l1 + sumZ l2.
Proof. induction l1 as [|x l1 IH]; simpl; lia. Qed.

Lemma sumZ_nonneg (l : list Z) : (forall x, In x l -> 0 <= x) -> 0 <= sumZ l.
Proof.
  induction l as [|x l IH]; simpl; intros H; [lia|].
  assert (0 <= x) by (apply H; auto).
  assert (0 <= sumZ l) by (apply IH; intros; apply H; auto). lia.
Qed.

Lemma scores_sum_nonneg (ev : WalletRiskEvaluator) (txs : list Tx) :
  nonneg_scores ev -> 0 <= sumZ (map (_evaluate_tx ev) txs).
Proof.
  intros Hs. apply sumZ_nonneg. intros x Hx.
  apply in_map_iff in Hx. destruct Hx as (tx & <- & _).
  now apply _evaluate_tx_nonneg.
Qed.

(** Whatever the configuration, the loop never returns more than
    [max_score]. *)
Lemma evaluate_loop_upper (ev : WalletRiskEvaluator) (txs : list Tx) :
  forall total, evaluate_loop ev total txs <= max_score ev.
Proof.
  induction txs as [|tx rest IH]; intros total; simpl.
  - lia.
  - destruct (max_score ev <=? total + _evaluate_tx ev tx); [lia | apply IH].
Qed.

(** With non-negative scores, leaving the loop early changes nothing. *)
Lemma evaluate_loop_clamped_sum (ev : WalletRiskEvaluator) (txs : list Tx) :
  nonneg_scores ev ->
  forall total,
    evaluate_loop ev total txs
    = Z.min (max_score ev) (total + sumZ (map (_evaluate_tx ev) txs)).
Proof.
  intros Hs. induction txs as [|tx rest IH]; intros total; simpl.
  - f_equal. lia.
  - pose proof (scores_sum_nonneg ev rest Hs) as Hrest.
    destruct (Z.leb_spec (max_score ev) (total + _evaluate_tx ev tx)).
    + lia.
    + rewrite IH. f_equal. lia.
Qed.

(** The total of [evaluate_detailed] is the result of the loop of
    [evaluate], for every configuration and every start of the loop. *)
Lemma evaluate_detailed_loop_total (ev : WalletRiskEvaluator) (txs : list Tx) :
  forall total details,
    fst (evaluate_detailed_loop ev total details txs)
    = evaluate_loop ev total txs.
Proof.
  induction txs as [|tx rest IH]; intros total details; simpl.
  - reflexivity.
  - unfold _evaluate_tx. destruct (_score_tx ev tx) as [s why]. simpl.
    destruct (max_score ev <=? total + s); [reflexivity | apply IH].
Qed.

Lemma detail_scores_of (ev : WalletRiskEvaluator) (txs : list Tx) :
  map detail_score (map (detail_of ev) txs) = map (_evaluate_tx ev) txs.
Proof. rewrite map_map. reflexivity. Qed.

(** The details returned by the loop, measured against the details it was
    started with, add up to a sum whose clamp is the result of [evaluate]. *)
Lemma evaluate_detailed_loop_sum (ev : WalletRiskEvaluator) (txs : list Tx) :
  forall total details,
    Z.min (max_score ev)
          (total
           + (sumZ (map detail_score
                        (snd (evaluate_detailed_loop ev total details txs)))
              - sumZ (map detail_score details)))
    = evaluate_loop ev total txs.
Proof.
  induction txs as [|tx rest IH]; intros total details; simpl.
  - f_equal. lia.
  - unfold _evaluate_tx. destruct (_score_tx ev tx) as [s why]. simpl.
    destruct (Z.leb_spec (max_score ev) (total + s)); simpl.
    + rewrite map_app, sumZ_app. simpl map. simpl sumZ.
      change (detail_score (tx, s, why)) with s. lia.
    + rewrite <- IH with (details := (details ++ [(tx, s, why)])%list).
      rewrite (map_app _ details), sumZ_app. simpl map. simpl sumZ.
      change (detail_score (tx, s, why)) with s. f_equal. lia.
Qed.

(** The details are those of a prefix of the list: the loop stops after
    the first transaction at which the running total reaches [max_score]. *)
Lemma evaluate_detailed_loop_prefix (ev : WalletRiskEvaluator) (txs : list Tx) :
  forall total details,
  exists k : nat,
    (k <= List.length txs)%nat
    /\ snd (evaluate_detailed_loop ev total details txs)
       = (details ++ map (detail_of ev) (firstn k txs))%list
    /\ (forall j, (0 < j < k)%nat ->
          total + sumZ (map (_evaluate_tx ev) (firstn j txs)) < max_score ev)
    /\ ((k < List.length txs)%nat ->
        max_score ev <= total + sumZ (map (_evaluate_tx ev) (firstn k txs)))
    /\ (txs <> [] -> (0 < k)%nat).
Proof.
  induction txs as [|tx rest IH]; intros total details.
  - exists 0%nat. simpl. rewrite app_nil_r.
    repeat split; try lia; congruence.
  - simpl. unfold _evaluate_tx, detail_of in *.
    destruct (_score_tx ev tx) as [s why] eqn:Es. simpl.
    destruct (Z.leb_spec (max_score ev) (total + s)) as [Hge | Hlt].
    + exists 1%nat. simpl. rewrite Es. simpl.
      repeat split; try lia.
    + destruct (IH (total + s) (details ++ [(tx, s, why)])%list)
        as (k & Hk & Hd & Hbelow & Hreach & _).
      exists (S k). simpl. rewrite Es. simpl.
      split; [lia|]. split; [|split; [|split]].
      * rewrite Hd, <- app_assoc. reflexivity.
      * intros [|j] Hj; [lia|]. simpl. rewrite Es. simpl.
        destruct j as [|j]; [simpl; lia|].
        specialize (Hbelow (S j)). lia.
      * intros Hlen. specialize (Hreach ltac:(lia)). lia.
      * lia.
Qed.

End ProxyResolverFacts.

(** * Properties of [wallet-core/oracle_insight.py] *)

Section OracleInsightFacts.
Import OracleInsight.

(** The counter of [_is_high_frequency] counts the entries selected by
    [counts_for]. *)
Lemma count_loop_filter (tx : TxObj) (t : Z) (others : list TxObj) :
  forall count,
    count_loop tx t count others
    = count + Z.of_nat (List.length (filter (counts_for tx t) others)).
Proof.
  induction others as [|o rest IH]; intros count; simpl.
  - lia.
  - unfold counts_for at 1.
    destruct (is_not o tx); simpl.
    + destruct (d_timestamp (fields o)) as [t'|].
      * destruct (within_minute t t'); rewrite IH; simpl List.length; lia.
      * apply IH.
    + apply IH.
Qed.

Lemma _is_high_frequency_count (ev : WalletRiskEvaluator) (tx : TxObj) (t : Z) :
  d_timestamp (fields tx) = Some t ->
  _is_high_frequency ev tx
  = (3 <=? others_within_minute (transactions ev) tx t)%nat.
Proof.
  intros Ht. unfold _is_high_frequency, others_within_minute. rewrite Ht.
  rewrite count_loop_filter.
  destruct (Nat.leb_spec 3 (List.length (filter (counts_for tx t) (transactions ev))));
    [apply Z.leb_le | apply Z.leb_gt]; lia.
Qed.

Lemma counts_for_has_timestamp (tx : TxObj) (t : Z) (o : TxObj) :
  counts_for tx t o = true -> has_timestamp o = true.
Proof.
  unfold counts_for, has_timestamp.
  destruct (d_timestamp (fields o)); [reflexivity|].
  rewrite andb_false_r. discriminate.
Qed.

Lemma filter_filter_implied {A : Type} (f g : A -> bool) (l : list A) :
  (forall x, f x = true -> g x = true) ->
  filter f (filter g l) = filter f l.
Proof.
  intros Himp. induction l as [|x l IH]; simpl; [reflexivity|].
  destruct (g x) eqn:Eg; simpl.
  - now rewrite IH.
  - destruct (f x) eqn:Ef; [|assumption].
    apply Himp in Ef. congruence.
Qed.

(** In a list of distinct objects, every entry but [tx] itself is another
    object than [tx]. *)
Lemma others_of_distinct (txs : list TxObj) (tx : TxObj) :
  NoDup (map oid txs) -> In tx txs ->
  List.length (filter (fun o => is_not o tx) txs) = (List.length txs - 1)%nat.
Proof.
  induction txs as [|o rest IH]; simpl; intros Hnd Hin; [contradiction|].
  inversion Hnd as [|x l Hnotin Hnd']; subst.
  unfold is_not at 1.
  destruct (Nat.eqb_spec (oid o) (oid tx)) as [Heq | Hne]; simpl.
  - assert (Hall : forall o', In o' rest -> is_not o' tx = true).
    { intros o' Ho'. unfold is_not.
      destruct (Nat.eqb_spec (oid o') (oid tx)) as [E|]; [|reflexivity].
      exfalso. apply Hnotin. rewrite Heq, <- E. now apply in_map. }
    rewrite forallb_filter_id; [lia|].
    apply forallb_forall. exact Hall.
  - destruct Hin as [-> | Hin]; [congruence|].
    rewrite (IH Hnd' Hin).
    destruct rest; [contradiction | simpl; lia].
Qed.

Lemma risk_points_values (ev : WalletRiskEvaluator) (tx : TxObj) :
  risk_points ev tx = 0 \/ 10 <= risk_points ev tx.
Proof.
  unfold risk_points.
  destruct (rule1 tx), (rule2 tx), (_is_high_frequency ev tx), (rule4 tx);
    simpl; lia.
Qed.

Lemma oracle_score_at_least_5 (ev : WalletRiskEvaluator) (tx : TxObj) :
  5 <= _evaluate_tx ev tx.
Proof.
  unfold _evaluate_tx.
  destruct (risk_points_values ev tx) as [-> | H]; simpl; [lia|].
  destruct (Z.eqb_spec (risk_points ev tx) 0); lia.
Qed.

Lemma oracle_score_loop_sum (ev : WalletRiskEvaluator) (txs : list TxObj) :
  forall score,
    score_loop ev score txs = score + sumZ (map (_evaluate_tx ev) txs).
Proof.
  induction txs as [|tx rest IH]; intros score; simpl; [lia|].
  rewrite IH. lia.
Qed.

Lemma oracle_scores_sum_lower (ev : WalletRiskEvaluator) (txs : list TxObj) :
  5 * Z.of_nat (List.length txs) <= sumZ (map (_evaluate_tx ev) txs).
Proof.
  induction txs as [|tx rest IH]; simpl List.length; simpl; [lia|].
  pose proof (oracle_score_at_least_5 ev tx). lia.
Qed.

(** Appending an entry can switch the high-frequency rule on, never off. *)
Lemma _is_high_frequency_append (L : list TxObj) (t tx : TxObj) :
  _is_high_frequency (mkEvaluator L) tx = true ->
  _is_high_frequency (mkEvaluator (L ++ [t])) tx = true.
Proof.
  unfold _is_high_frequency. simpl.
  destruct (d_timestamp (fields tx)) as [tt|]; [|discriminate].
  rewrite !count_loop_filter, filter_app, length_app.
  rewrite !Z.leb_le. lia.
Qed.

Lemma oracle_score_append (L : list TxObj) (t tx : TxObj) :
  _evaluate_tx (mkEvaluator L) tx <= _evaluate_tx (mkEvaluator (L ++ [t])) tx.
Proof.
  pose proof (_is_high_frequency_append L t tx) as Hmono.
  unfold _evaluate_tx, risk_points.
  destruct (_is_high_frequency (mkEvaluator L) tx).
  - rewrite Hmono by reflexivity.
    destruct (rule1 tx), (rule2 tx), (rule4 tx); simpl; lia.
  - destruct (_is_high_frequency (mkEvaluator (L ++ [t])) tx);
      destruct (rule1 tx), (rule2 tx), (rule4 tx); simpl; lia.
Qed.

Lemma sumZ_map_le {A : Type} (f g : A -> Z) (l : list A) :
  (forall x, f x <= g x) -> sumZ (map f l) <= sumZ (map g l).
Proof.
  intros H. induction l as [|x l IH]; simpl; [lia|].
  specialize (H x). lia.
Qed.

End OracleInsightFacts.

(** * Properties of [wallet-core/python/ai/bot_detector.py] *)

Section BotDetectorFacts.
Import BotDetector.

Lemma bot_score_of_complete (tx : TxDict) :
  complete tx = true ->
  exists s, _evaluate_tx tx = Ok s /\ (s = 20 \/ s = 15 \/ s = 5).
Proof.
  unfold complete, _evaluate_tx.
  destruct (d_amount tx) as [a|]; [|discriminate].
  destruct (d_type tx) as [ty|]; [|discriminate].
  destruct (d_destination tx) as [d|]; [|discriminate].
  intros _. simpl.
  destruct (Qgtb a (10000 # 1)); simpl.
  - destruct (String.eqb ty "out"); simpl; [eauto|].
    destruct (startswith d "unknown_"); eauto.
  - destruct (startswith d "unknown_"); eauto.
Qed.

Lemma bot_score_loop_complete (txs : list TxDict) :
  forallb complete txs = true ->
  forall score,
  exists total,
    score_loop score txs = Ok total
    /\ score + 5 * Z.of_nat (List.length txs) <= total.
Proof.
  induction txs as [|tx rest IH]; simpl List.length; simpl; intros Hc score.
  - exists score. split; [reflexivity | lia].
  - apply andb_true_iff in Hc. destruct Hc as [Htx Hrest].
    destruct (bot_score_of_complete tx Htx) as (s & -> & Hs). simpl.
    destruct (IH Hrest (score + s)) as (total & -> & Hle).
    exists total. split; [reflexivity | lia].
Qed.

End BotDetectorFacts.

(** * The claims of the specification *)

Section Claims.
Import ProxyResolver.

Lemma Qgtb_lt (a b : Q) : Qgtb a b = true <-> (b < a)%Q.
Proof.
  unfold Qgtb. rewrite negb_true_iff. split.
  - intros H. apply Qnot_le_lt. intros Hle.
    apply Qle_bool_iff in Hle. congruence.
  - intros H. destruct (Qle_bool a b) eqn:E; [|reflexivity].
    apply Qle_bool_iff in E. exfalso. exact (Qlt_not_le _ _ H E).
Qed.

Lemma is_large_out_spec (ev : WalletRiskEvaluator) (tx : Tx) :
  is_large_out ev tx = true <-> large_outbound ev tx.
Proof.
  unfold is_large_out, large_outbound.
  now rewrite andb_true_iff, String.eqb_eq, Qgtb_lt.
Qed.

(** C1 (as amended). For every transaction list and every configuration
    whose [max_score] and three rule scores are non-negative, [evaluate]
    of [proxy_resolver.py] returns an integer between 0 and [max_score],
    and 0 on the empty list; [evaluate] of [oracle_insight.py], which has
    no configuration, returns an integer between 0 and 100, and 0 on the
    empty list. *)
Theorem evaluate_within_bounds
    (ev : WalletRiskEvaluator) (oev : OracleInsight.WalletRiskEvaluator) :
  0 <= max_score ev ->
  nonneg_scores ev ->
  0 <= evaluate ev <= max_score ev
  /\ (transactions ev = [] -> evaluate ev = 0)
  /\ 0 <= OracleInsight.evaluate oev <= 100
  /\ (OracleInsight.transactions oev = [] -> OracleInsight.evaluate oev = 0).
Proof.
  intros Hmax Hs. unfold evaluate, OracleInsight.evaluate.
  rewrite evaluate_loop_clamped_sum by assumption.
  rewrite oracle_score_loop_sum.
  pose proof (scores_sum_nonneg ev (transactions ev) Hs).
  pose proof (oracle_scores_sum_lower oev (OracleInsight.transactions oev)).
  repeat split; try lia.
  - intros ->. simpl. lia.
  - intros ->. reflexivity.
Qed.

(** The upper bound of C1 needs no assumption on the configuration. *)
Lemma evaluate_at_most_max_score (ev : WalletRiskEvaluator) :
  evaluate ev <= max_score ev.
Proof. apply evaluate_loop_upper. Qed.

(** C1, the claim as written fails: with [score_baseline=-5] one ordinary
    transaction scores -5, and with [max_score=-1] the empty list scores
    -1. *)
Lemma evaluate_below_zero :
  evaluate (evaluator_of config_negative_baseline [tx_plain]) = -5
  /\ ~ 0 <= evaluate (evaluator_of config_negative_baseline [tx_plain])
  /\ evaluate (evaluator_of config_negative_max []) = -1
  /\ evaluate (evaluator_of config_negative_max []) <> 0.
Proof. repeat split; vm_compute; congruence. Qed.

Lemma evaluate_within_bounds_witness :
  0 <= evaluate (evaluator_of default_config [tx_large_out; tx_plain]) <= 100.
Proof.
  apply (evaluate_within_bounds
           (evaluator_of default_config [tx_large_out; tx_plain])
           (OracleInsight.mkEvaluator [])).
  - simpl. lia.
  - unfold nonneg_scores. simpl. lia.
Defined.

Lemma lower_char_u (c : ascii) :
  Ascii.eqb (lower_char c) "u" = Ascii.eqb c "u" || Ascii.eqb c "U".
Proof. destruct c as [[] [] [] [] [] [] [] []]; reflexivity. Qed.

Lemma lower_char_n (c : ascii) :
  Ascii.eqb (lower_char c) "n" = Ascii.eqb c "n" || Ascii.eqb c "N".
Proof. destruct c as [[] [] [] [] [] [] [] []]; reflexivity. Qed.

Lemma lower_char_k (c : ascii) :
  Ascii.eqb (lower_char c) "k" = Ascii.eqb c "k" || Ascii.eqb c "K".
Proof. destruct c as [[] [] [] [] [] [] [] []]; reflexivity. Qed.

Lemma lower_char_o (c : ascii) :
  Ascii.eqb (lower_char c) "o" = Ascii.eqb c "o" || Ascii.eqb c "O".
Proof. destruct c as [[] [] [] [] [] [] [] []]; reflexivity. Qed.

Lemma lower_char_w (c : ascii) :
  Ascii.eqb (lower_char c) "w" = Ascii.eqb c "w" || Ascii.eqb c "W".
Proof. destruct c as [[] [] [] [] [] [] [] []]; reflexivity. Qed.

(** Lowering gives [unknown] exactly on the spellings of the word in
    small and capital letters. *)
Lemma spelled_unknown (pre : string) :
  spelled "unknown" "UNKNOWN" pre = String.eqb (lower pre) "unknown".
Proof.
  destruct pre as [|c1 [|c2 [|c3 [|c4 [|c5 [|c6 [|c7 [|c8 r]]]]]]]];
    cbn [spelled lower String.eqb];
    rewrite ?lower_char_u, ?lower_char_n, ?lower_char_k, ?lower_char_o,
      ?lower_char_w;
    repeat match goal with
           | |- context [Ascii.eqb ?c ?x || Ascii.eqb ?c ?y] =>
               destruct (Ascii.eqb c x || Ascii.eqb c y); cbn [andb]
           end;
    reflexivity.
Qed.

Lemma _unknown_re_match_letters (s : string) :
  _unknown_re_match s = true <-> unknown_pattern_letters s.
Proof.
  rewrite _unknown_re_match_spec.
  unfold unknown_pattern, unknown_pattern_letters.
  split; intros (pre & rest & Hs & Hpre & Hrest); exists pre, rest;
    (split; [exact Hs|]); (split; [|exact Hrest]).
  - rewrite spelled_unknown. now apply String.eqb_eq.
  - rewrite spelled_unknown in Hpre. now apply String.eqb_eq.
Qed.

(** C2 (as amended). In [proxy_resolver.py] the per-transaction score is
    that of the first rule that matches, and of that rule alone:
    [score_large_out] for an outbound transfer above the threshold, else
    [score_unknown_dest] for a destination matching the unknown pattern,
    else [score_baseline]; a one-transaction list evaluates to that score,
    capped at [max_score], and the transaction of scenario B scores 15
    under the defaults. In [oracle_insight.py] the rules are not a cascade:
    the score is the sum of the points of every rule that holds (20, 15,
    10 and 25), or 5 when none holds, and the transaction of scenario B
    scores 40. *)
Theorem rule_cascade_first_match
    (cfg : Config) (tx : Tx)
    (oev : OracleInsight.WalletRiskEvaluator) (otx : OracleInsight.TxObj) :
  (large_outbound (evaluator_of cfg [tx]) tx ->
     _score_tx (evaluator_of cfg [tx]) tx
     = (cfg_score_large_out cfg, "large_out"))
  /\ (~ large_outbound (evaluator_of cfg [tx]) tx ->
      unknown_pattern_letters (destination tx) ->
      _score_tx (evaluator_of cfg [tx]) tx
      = (cfg_score_unknown_dest cfg, "unknown_destination"))
  /\ (~ large_outbound (evaluator_of cfg [tx]) tx ->
      ~ unknown_pattern_letters (destination tx) ->
      _score_tx (evaluator_of cfg [tx]) tx
      = (cfg_score_baseline cfg, "baseline"))
  /\ evaluate (evaluator_of cfg [tx])
     = Z.min (cfg_max_score cfg) (fst (_score_tx (evaluator_of cfg [tx]) tx))
  /\ evaluate (evaluator_of default_config [tx_unknown]) = 15
  /\ OracleInsight._evaluate_tx oev otx
     = (let points :=
          (if OracleInsight.rule1 otx then 20 else 0)
          + (if OracleInsight.rule2 otx then 15 else 0)
          + (if OracleInsight._is_high_frequency oev otx then 10 else 0)
          + (if OracleInsight.rule4 otx then 25 else 0) in
        if points =? 0 then 5 else points)
  /\ OracleInsight.evaluate
       (OracleInsight.mkEvaluator [OracleInsight.obj_unknown]) = 40.
Proof.
  set (ev := evaluator_of cfg [tx]).
  pose proof (is_large_out_spec ev tx) as Hl.
  pose proof (_unknown_re_match_letters (destination tx)) as Hu.
  split; [|split; [|split; [|split; [|split; [|split]]]]].
  - intros H. apply Hl in H. unfold _score_tx. now rewrite H.
  - intros Hn Hp. unfold _score_tx. destruct (is_large_out ev tx); [tauto|].
    apply Hu in Hp. now rewrite Hp.
  - intros Hn Hp. unfold _score_tx. destruct (is_large_out ev tx); [tauto|].
    destruct (_unknown_re_match (destination tx)); [tauto | reflexivity].
  - unfold evaluate, _evaluate_tx.
    change (transactions ev) with [tx].
    change (max_score ev) with (cfg_max_score cfg).
    cbn [evaluate_loop]. unfold _evaluate_tx.
    change (max_score ev) with (cfg_max_score cfg).
    destruct (Z.leb_spec (cfg_max_score cfg) (0 + fst (_score_tx ev tx))); lia.
  - reflexivity.
  - unfold OracleInsight._evaluate_tx, OracleInsight.risk_points.
    destruct (OracleInsight.rule1 otx), (OracleInsight.rule2 otx),
      (OracleInsight._is_high_frequency oev otx), (OracleInsight.rule4 otx);
      reflexivity.
  - reflexivity.
Qed.

(** C2, the claim as written fails in [oracle_insight.py], which it also
    cites: there the transaction of scenario B matches the
    unknown-destination rule and the blacklist, the points of both are
    added, and the list scores 40, not 15. *)
Lemma oracle_rules_stack :
  OracleInsight.rule2 OracleInsight.obj_unknown = true
  /\ OracleInsight.rule4 OracleInsight.obj_unknown = true
  /\ OracleInsight._evaluate_tx
       (OracleInsight.mkEvaluator [OracleInsight.obj_unknown])
       OracleInsight.obj_unknown = 15 + 25
  /\ OracleInsight.evaluate
       (OracleInsight.mkEvaluator [OracleInsight.obj_unknown]) = 40
  /\ OracleInsight.evaluate
       (OracleInsight.mkEvaluator [OracleInsight.obj_unknown]) <> 15.
Proof. repeat split. discriminate. Qed.

Lemma rule_cascade_first_match_witness :
  _score_tx (evaluator_of default_config [tx_unknown]) tx_unknown
  = (15, "unknown_destination").
Proof.
  apply (proj1 (proj2 (rule_cascade_first_match
                         default_config tx_unknown
                         (OracleInsight.mkEvaluator []) OracleInsight.obj_unknown))).
  - unfold large_outbound. simpl. intros [_ H]. vm_compute in H. discriminate.
  - exists "unknown", "_wallet". simpl. repeat split. right. right.
    exists "wallet". reflexivity.
Defined.

(** Scenarios A and C of the specification. *)
Example scenario_A :
  evaluate (evaluator_of default_config [tx_large_out]) = 20.
Proof. reflexivity. Qed.

Example scenario_C :
  evaluate (evaluator_of default_config [tx_plain]) = 5.
Proof. reflexivity. Qed.

(** C3 (as amended). For every transaction list and every configuration
    whose three rule scores are non-negative, leaving the loop of
    [evaluate] early gives the same result as summing the scores of all
    transactions and clamping the sum to [max_score]. *)
Theorem evaluate_early_exit_is_clamped_sum (ev : WalletRiskEvaluator) :
  nonneg_scores ev ->
  evaluate ev = Z.min (max_score ev) (sumZ (all_scores ev)).
Proof.
  intros Hs. unfold evaluate, all_scores.
  now rewrite evaluate_loop_clamped_sum.
Qed.

(** C3, the claim as written fails: with [score_baseline=-5], five large
    outbound transfers reach 100 and [evaluate] returns 100 at once, while
    the sum over the six transactions is 95. *)
Lemma evaluate_early_exit_differs :
  evaluate (evaluator_of config_negative_baseline
              (repeat tx_large_out 5 ++ [tx_plain])) = 100
  /\ Z.min 100 (sumZ (all_scores (evaluator_of config_negative_baseline
                                    (repeat tx_large_out 5 ++ [tx_plain]))))
     = 95.
Proof. split; reflexivity. Qed.

Lemma evaluate_early_exit_is_clamped_sum_witness :
  evaluate (evaluator_of default_config six_large_out)
  = Z.min 100 (sumZ (all_scores (evaluator_of default_config six_large_out))).
Proof.
  apply (evaluate_early_exit_is_clamped_sum
           (evaluator_of default_config six_large_out)).
  unfold nonneg_scores. simpl. lia.
Defined.

(** C4. For every transaction list and every configuration, the scores in
    the details returned by [evaluate_detailed], summed and clamped to
    [max_score], give the result of [evaluate], and so does the total
    returned by [evaluate_detailed]. *)
Theorem evaluate_detailed_consistent (ev : WalletRiskEvaluator) :
  Z.min (max_score ev)
        (sumZ (map detail_score (snd (evaluate_detailed ev))))
  = evaluate ev
  /\ fst (evaluate_detailed ev) = evaluate ev.
Proof.
  unfold evaluate_detailed, evaluate. split.
  - rewrite <- (evaluate_detailed_loop_sum ev (transactions ev) 0 []).
    simpl. f_equal. lia.
  - apply evaluate_detailed_loop_total.
Qed.

(** C5 (as amended). [evaluate_detailed] returns one entry, in list order,
    for each transaction up to and including the first one at which the
    running total reaches [max_score], and for every transaction when the
    running total stays below [max_score] before the last one; each entry
    holds the transaction with its score and reason; the returned total is
    at most [max_score] and equals [evaluate]. *)
Theorem evaluate_detailed_entries_prefix (ev : WalletRiskEvaluator) :
  (exists k : nat,
     (k <= List.length (transactions ev))%nat
     /\ (transactions ev <> [] -> (0 < k)%nat)
     /\ snd (evaluate_detailed ev)
        = map (detail_of ev) (firstn k (transactions ev))
     /\ (forall j, (0 < j < k)%nat ->
           sumZ (map (_evaluate_tx ev) (firstn j (transactions ev)))
           < max_score ev)
     /\ ((k < List.length (transactions ev))%nat ->
         max_score ev
         <= sumZ (map (_evaluate_tx ev) (firstn k (transactions ev)))))
  /\ ((forall j, (0 < j < List.length (transactions ev))%nat ->
         sumZ (map (_evaluate_tx ev) (firstn j (transactions ev)))
         < max_score ev) ->
      snd (evaluate_detailed ev) = map (detail_of ev) (transactions ev))
  /\ fst (evaluate_detailed ev) <= max_score ev
  /\ fst (evaluate_detailed ev) = evaluate ev.
Proof.
  destruct (evaluate_detailed_loop_prefix ev (transactions ev) 0 [])
    as (k & Hk & Hd & Hbelow & Hreach & Hpos).
  fold (evaluate_detailed ev) in Hd. simpl in Hd, Hbelow, Hreach.
  split; [|split; [|split]].
  - exists k. auto.
  - intros Hall. rewrite Hd.
    destruct (Nat.eq_dec k (List.length (transactions ev))) as [-> | Hne].
    + now rewrite firstn_all.
    + assert (Hlt : (k < List.length (transactions ev))%nat) by lia.
      assert (Hne' : transactions ev <> []).
      { intros E. rewrite E in Hlt. simpl in Hlt. lia. }
      specialize (Hreach Hlt). specialize (Hpos Hne').
      specialize (Hall k ltac:(lia)). lia.
  - unfold evaluate_detailed. rewrite evaluate_detailed_loop_total.
    apply evaluate_loop_upper.
  - apply evaluate_detailed_loop_total.
Qed.

(** C5, the claim as written fails: of six large outbound transfers under
    the defaults, the fifth brings the total to 100 and the details stop
    there, with five entries. *)
Lemma evaluate_detailed_stops_early :
  List.length (transactions (evaluator_of default_config six_large_out)) = 6%nat
  /\ List.length
       (snd (evaluate_detailed (evaluator_of default_config six_large_out)))
     = 5%nat
  /\ fst (evaluate_detailed (evaluator_of default_config six_large_out)) = 100.
Proof. repeat split. Qed.

Lemma evaluate_detailed_entries_prefix_witness :
  snd (evaluate_detailed (evaluator_of default_config [tx_large_out; tx_plain]))
  = [(tx_large_out, 20, "large_out"); (tx_plain, 5, "baseline")].
Proof.
  apply (proj1 (proj2 (evaluate_detailed_entries_prefix
                         (evaluator_of default_config [tx_large_out; tx_plain])))).
  intros j Hj. simpl in Hj.
  assert (j = 1%nat) as -> by lia. vm_compute. reflexivity.
Defined.

Lemma sanitize_all_raises (txs : list TxDict) (e : exn) :
  sanitize_all txs = Raise e -> e = OverflowError.
Proof.
  induction txs as [|t rest IH]; simpl; [discriminate|].
  unfold sanitize.
  destruct (py_float (get (d_amount t) 0%Q)) as [a|e'] eqn:Ea; simpl.
  - destruct (sanitize_all rest) as [txs'|e'']; simpl; [discriminate|].
    intros H. injection H as <-. now apply IH.
  - intros H. injection H as <-. now apply (py_float_raises _ _ Ea).
Qed.



(** Construction on numbers [float] changes or refuses: an amount of
    [2^53 + 1] is stored as [2^53], and an amount or a threshold of
    [10^400] ends construction with [OverflowError]. *)
Example init_rounds_and_overflows :
  __init__ [mkTxDict (Some (inject_Z (2 ^ 53 + 1))) (Some "out") None None]
           default_config
  = Ok (evaluator_of default_config [mkTx (inject_Z (2 ^ 53)) "out" ""])
  /\ __init__ [mkTxDict (Some (inject_Z (10 ^ 400))) (Some "out") (Some "x") None]
              default_config
     = Raise OverflowError
  /\ __init__ [] (mkConfig (inject_Z (10 ^ 400)) 20 15 5 100)
     = Raise OverflowError.
Proof. repeat split; vm_compute; reflexivity. Qed.


(** Sanitising: a missing key is replaced by its default. *)
Lemma sanitize_defaults (t : TxDict) :
  exists tx,
    (d_amount t = None -> sanitize t = Ok tx /\ amount tx = 0%Q)
    /\ type tx = lower (get (d_type t) "")
    /\ (d_type t = None -> type tx = "")
    /\ (d_destination t = None -> destination tx = "").
Proof.
  exists (mkTx 0%Q (lower (get (d_type t) "")) (get (d_destination t) "")).
  split; [|split; [|split]]; simpl.
  - intros E. unfold sanitize. rewrite E. split; reflexivity.
  - reflexivity.
  - intros ->. reflexivity.
  - intros ->. reflexivity.
Qed.

(** C6, at the failing input. On the list [[{}]], [evaluate] of
    [bot_detector.py] raises [KeyError('amount')]; the two sibling
    variants read the keys with [.get] and score the same dictionary 5. *)
Theorem bot_detector_missing_amount_raises :
  BotDetector.evaluate (BotDetector.mkEvaluator [empty_dict])
  = Raise (KeyError "amount")
  /\ sanitize empty_dict = Ok (mkTx 0%Q "" "")
  /\ (exists ev, __init__ [empty_dict] default_config = Ok ev
                 /\ evaluate ev = 5)
  /\ OracleInsight.evaluate
       (OracleInsight.mkEvaluator [OracleInsight.mkTxObj 0 empty_dict]) = 5.
Proof.
  split; [reflexivity|]. split; [reflexivity|]. split; [|reflexivity].
  exists (evaluator_of default_config [mkTx 0%Q "" ""]).
  split; vm_compute; reflexivity.
Qed.

End Claims.

Section StackingClaims.
Import OracleInsight.

Lemma within_minute_same (t : Z) : within_minute t t = true.
Proof. unfold within_minute. apply Z.ltb_lt. lia. Qed.

Lemma same_time_batch_distinct (t : Z) (n : nat) :
  NoDup (map oid (same_time_batch t n)).
Proof.
  unfold same_time_batch. rewrite map_map. simpl. rewrite map_id.
  apply seq_NoDup.
Qed.

Lemma same_time_batch_timestamp (t : Z) (n : nat) (o : TxObj) :
  In o (same_time_batch t n) -> d_timestamp (fields o) = Some t.
Proof.
  unfold same_time_batch. intros H. apply in_map_iff in H.
  destruct H as (i & <- & _). reflexivity.
Qed.

Lemma same_time_batch_length (t : Z) (n : nat) :
  List.length (same_time_batch t n) = n.
Proof. unfold same_time_batch. now rewrite length_map, length_seq. Qed.

(** Among at least four distinct objects that share one timestamp the rule
    fires for each of them. *)
Lemma high_frequency_same_time (txs : list TxObj) (t : Z) (tx : TxObj) :
  (4 <= List.length txs)%nat ->
  NoDup (map oid txs) ->
  (forall o, In o txs -> d_timestamp (fields o) = Some t) ->
  In tx txs ->
  _is_high_frequency (mkEvaluator txs) tx = true.
Proof.
  intros Hlen Hnd Hall Hin.
  rewrite (_is_high_frequency_count _ tx t (Hall tx Hin)).
  unfold others_within_minute. cbn [transactions].
  rewrite (filter_ext_in (counts_for tx t) (fun o => is_not o tx)).
  - rewrite (others_of_distinct txs tx Hnd Hin). apply Nat.leb_le. lia.
  - intros o Ho. unfold counts_for. rewrite (Hall o Ho), within_minute_same.
    apply andb_true_r.
Qed.

(** The test of the loop of [_is_high_frequency] is the condition of the
    specification. *)
Lemma counts_for_other_within_60s (tx : TxObj) (t : Z) (o : TxObj) :
  counts_for tx t o = other_within_60s_dec tx t o.
Proof.
  unfold counts_for, other_within_60s_dec, is_not, within_minute.
  destruct (d_timestamp (fields o)) as [t'|]; [|apply andb_false_r].
  destruct (Nat.eq_dec (oid o) (oid tx)) as [E | Hne].
  - rewrite E, Nat.eqb_refl. reflexivity.
  - rewrite (proj2 (Nat.eqb_neq _ _) Hne). simpl.
    destruct (Z.ltb_spec (Z.abs (t - t')) 60000000),
      (Z.ltb_spec (- (60 * 1000000)) (t - t')),
      (Z.ltb_spec (t - t') (60 * 1000000)); simpl; try reflexivity; lia.
Qed.

Lemma other_within_60s_reflect (tx : TxObj) (t : Z) (o : TxObj) :
  other_within_60s_dec tx t o = true <-> other_within_60s tx t o.
Proof.
  unfold other_within_60s_dec, other_within_60s.
  destruct (d_timestamp (fields o)) as [t'|].
  - destruct (Nat.eq_dec (oid o) (oid tx)) as [E | Hne].
    + split; [discriminate | tauto].
    + rewrite andb_true_iff, !Z.ltb_lt. split.
      * intros H. split; [exact Hne|]. exists t'. split; [reflexivity | lia].
      * intros (_ & t'' & Ht & H). injection Ht as <-. lia.
  - split; [discriminate|]. intros (_ & t' & Ht & _). discriminate.
Qed.

(** C8 (as amended). In [oracle_insight.py], for a transaction that
    carries a timestamp [t] the high-frequency rule holds exactly when at
    least three entries of the full list are other objects than the
    transaction (what [is not] compares) and carry a timestamp less than
    60 seconds away from [t] in absolute value; it never holds for a
    transaction without a timestamp; entries without a timestamp do not
    count (removing them from the list changes nothing); the score of the
    transaction contains the 10 points of the rule exactly when the rule
    holds; and in a list of 200 distinct transaction objects that share
    one timestamp the rule holds for each of them. *)
Theorem high_frequency_rule (ev : WalletRiskEvaluator) (tx : TxObj) :
  (forall t, d_timestamp (fields tx) = Some t ->
     (_is_high_frequency ev tx = true
      <-> (3 <= count_others_within_60s (transactions ev) tx t)%nat))
  /\ (forall t o, other_within_60s_dec tx t o = true
                  <-> other_within_60s tx t o)
  /\ (d_timestamp (fields tx) = None -> _is_high_frequency ev tx = false)
  /\ _is_high_frequency (mkEvaluator (filter has_timestamp (transactions ev))) tx
     = _is_high_frequency ev tx
  /\ risk_points ev tx
     = base_points tx + (if _is_high_frequency ev tx then 10 else 0)
  /\ _evaluate_tx ev tx
     = (if _is_high_frequency ev tx then base_points tx + 10
        else if base_points tx =? 0 then 5 else base_points tx)
  /\ (forall t,
        List.length (transactions ev) = 200%nat ->
        NoDup (map oid (transactions ev)) ->
        (forall o, In o (transactions ev) -> d_timestamp (fields o) = Some t) ->
        In tx (transactions ev) ->
        _is_high_frequency ev tx = true).
Proof.
  assert (Hrp : risk_points ev tx
                = base_points tx + (if _is_high_frequency ev tx then 10 else 0)).
  { unfold risk_points, base_points.
    destruct (rule1 tx), (rule2 tx), (_is_high_frequency ev tx), (rule4 tx);
      reflexivity. }
  split; [|split; [|split; [|split; [|split; [|split]]]]].
  - intros t Ht. rewrite (_is_high_frequency_count ev tx t Ht).
    unfold others_within_minute, count_others_within_60s.
    rewrite (filter_ext _ _ (counts_for_other_within_60s tx t)).
    apply Nat.leb_le.
  - intros t o. apply other_within_60s_reflect.
  - intros Hnone. unfold _is_high_frequency. now rewrite Hnone.
  - unfold _is_high_frequency. simpl.
    destruct (d_timestamp (fields tx)) as [t|]; [|reflexivity].
    rewrite !count_loop_filter, filter_filter_implied; [reflexivity|].
    apply counts_for_has_timestamp.
  - exact Hrp.
  - unfold _evaluate_tx. rewrite Hrp.
    assert (Hb : 0 <= base_points tx).
    { unfold base_points. destruct (rule1 tx), (rule2 tx), (rule4 tx); lia. }
    destruct (_is_high_frequency ev tx).
    + destruct (Z.eqb_spec (base_points tx + 10) 0); [lia | reflexivity].
    + rewrite Z.add_0_r. reflexivity.
  - intros t Hlen Hnd Hall Hin. destruct ev as [txs]. simpl in *.
    apply (high_frequency_same_time txs t tx); auto. lia.
Qed.

Lemma high_frequency_rule_witness :
  _is_high_frequency (mkEvaluator (same_time_batch 0 200))
                     (mkTxObj 7 (mkTxDict None None None (Some 0)))
  = true.
Proof.
  apply (proj2 (proj2 (proj2 (proj2 (proj2 (proj2
           (high_frequency_rule
              (mkEvaluator (same_time_batch 0 200))
              (mkTxObj 7 (mkTxDict None None None (Some 0)))))))))
         0).
  - apply same_time_batch_length.
  - apply same_time_batch_distinct.
  - apply same_time_batch_timestamp.
  - unfold same_time_batch. apply in_map_iff. exists 7%nat.
    split; [reflexivity|]. apply in_seq. lia.
Defined.

(** C8, the claim as written fails: what [is not] compares is the object,
    not its contents. When one dictionary object fills all 200 positions
    of a list, all entries share its timestamp, yet no entry is another
    object and the rule does not hold. *)
Lemma high_frequency_aliased_list :
  List.length (aliased_batch 0 200) = 200%nat
  /\ Forall (fun o => d_timestamp (fields o) = Some 0) (aliased_batch 0 200)
  /\ In (mkTxObj 0 (mkTxDict None None None (Some 0))) (aliased_batch 0 200)
  /\ _is_high_frequency (mkEvaluator (aliased_batch 0 200))
                        (mkTxObj 0 (mkTxDict None None None (Some 0)))
     = false.
Proof.
  split; [apply repeat_length|]. split; [|split].
  - apply Forall_forall. intros o Ho. apply repeat_spec in Ho. now subst.
  - left. reflexivity.
  - vm_compute. reflexivity.
Qed.

(** C9. The sum of the per-transaction scores before clamping does not
    decrease when a transaction is appended: in [proxy_resolver.py] under
    the default configuration, and in [oracle_insight.py], where the
    appended entry may also raise the scores of the entries before it. *)
Theorem running_sum_monotone_append :
  (forall (L : list ProxyResolver.Tx) (t : ProxyResolver.Tx),
     sumZ (ProxyResolver.all_scores
             (ProxyResolver.evaluator_of ProxyResolver.default_config L))
     <= sumZ (ProxyResolver.all_scores
                (ProxyResolver.evaluator_of ProxyResolver.default_config
                                            (L ++ [t]))))
  /\ (forall (L : list TxObj) (t : TxObj),
        sumZ (all_scores (mkEvaluator L))
        <= sumZ (all_scores (mkEvaluator (L ++ [t])))).
Proof.
  split; intros L t.
  - unfold ProxyResolver.all_scores. simpl. rewrite map_app, sumZ_app. simpl.
    assert (0 <= ProxyResolver._evaluate_tx
                   (ProxyResolver.evaluator_of ProxyResolver.default_config
                                               (L ++ [t])) t).
    { apply _evaluate_tx_nonneg. unfold ProxyResolver.nonneg_scores. simpl. lia. }
    assert (E : map (ProxyResolver._evaluate_tx
                       (ProxyResolver.evaluator_of ProxyResolver.default_config L)) L
                = map (ProxyResolver._evaluate_tx
                         (ProxyResolver.evaluator_of ProxyResolver.default_config
                                                     (L ++ [t]))) L)
      by reflexivity.
    rewrite E. lia.
  - unfold all_scores. simpl. rewrite map_app, sumZ_app. simpl.
    pose proof (oracle_score_at_least_5 (mkEvaluator (L ++ [t])) t).
    pose proof (sumZ_map_le (_evaluate_tx (mkEvaluator L))
                            (_evaluate_tx (mkEvaluator (L ++ [t]))) L
                            (oracle_score_append L t)).
    lia.
Qed.

End StackingClaims.

Section BaselineClaims.

(** When the baseline is non-negative and the smallest of the three rule
    scores, it bounds every score of [proxy_resolver.py] from below, and
    [evaluate] on a non-empty list from below once capped by [max_score]. *)
Lemma proxy_score_at_least_baseline
    (ev : ProxyResolver.WalletRiskEvaluator) (tx : ProxyResolver.Tx) :
  ProxyResolver.score_baseline ev <= ProxyResolver.score_large_out ev ->
  ProxyResolver.score_baseline ev <= ProxyResolver.score_unknown_dest ev ->
  ProxyResolver.score_baseline ev <= ProxyResolver._evaluate_tx ev tx.
Proof.
  intros H1 H2.
  destruct (_evaluate_tx_cases ev tx) as [-> | [-> | ->]]; lia.
Qed.

Lemma proxy_evaluate_nonempty_lower (ev : ProxyResolver.WalletRiskEvaluator) :
  0 <= ProxyResolver.score_baseline ev ->
  ProxyResolver.score_baseline ev <= ProxyResolver.score_large_out ev ->
  ProxyResolver.score_baseline ev <= ProxyResolver.score_unknown_dest ev ->
  ProxyResolver.transactions ev <> [] ->
  Z.min (ProxyResolver.max_score ev) (ProxyResolver.score_baseline ev)
  <= ProxyResolver.evaluate ev.
Proof.
  intros H0 H1 H2 Hne.
  assert (Hs : ProxyResolver.nonneg_scores ev)
    by (unfold ProxyResolver.nonneg_scores; lia).
  unfold ProxyResolver.evaluate.
  rewrite evaluate_loop_clamped_sum by assumption.
  destruct (ProxyResolver.transactions ev) as [|tx rest]; [congruence|].
  simpl.
  pose proof (proxy_score_at_least_baseline ev tx H1 H2).
  pose proof (scores_sum_nonneg ev rest Hs).
  lia.
Qed.

(** C10 (as amended). When [score_baseline] is non-negative and not
    above [score_large_out] and [score_unknown_dest] (as under the
    defaults 20, 15 and 5), every per-transaction score of
    [proxy_resolver.py] is at least [score_baseline], and [evaluate] on a
    non-empty list returns at least [min(max_score, score_baseline)], so
    never 0 when [score_baseline] and [max_score] are positive. In
    [oracle_insight.py] and in [bot_detector.py], whose points are
    constants, every score is at least 5 and a non-empty list evaluates to
    at least 5 (in [bot_detector.py] on dictionaries that have the keys it
    reads). *)
Theorem nonempty_scores_at_least_baseline
    (ev : ProxyResolver.WalletRiskEvaluator) :
  0 <= ProxyResolver.score_baseline ev ->
  ProxyResolver.score_baseline ev <= ProxyResolver.score_large_out ev ->
  ProxyResolver.score_baseline ev <= ProxyResolver.score_unknown_dest ev ->
  (forall tx, ProxyResolver.score_baseline ev
              <= ProxyResolver._evaluate_tx ev tx)
  /\ (ProxyResolver.transactions ev <> [] ->
      Z.min (ProxyResolver.max_score ev) (ProxyResolver.score_baseline ev)
      <= ProxyResolver.evaluate ev
      /\ (0 < ProxyResolver.score_baseline ev ->
          0 < ProxyResolver.max_score ev ->
          0 < ProxyResolver.evaluate ev))
  /\ (forall txs : list OracleInsight.TxObj,
        let oev := OracleInsight.mkEvaluator txs in
        (forall tx, 5 <= OracleInsight._evaluate_tx oev tx)
        /\ (txs <> [] -> 5 <= OracleInsight.evaluate oev))
  /\ (forall txs : list TxDict,
        forallb BotDetector.complete txs = true ->
        (forall tx, In tx txs ->
           exists s, BotDetector._evaluate_tx tx = Ok s /\ 5 <= s)
        /\ (txs <> [] ->
            exists s, BotDetector.evaluate (BotDetector.mkEvaluator txs) = Ok s
                      /\ 5 <= s)).
Proof.
  intros H0 H1 H2. split; [|split; [|split]].
  - intros tx. now apply proxy_score_at_least_baseline.
  - intros Hne.
    pose proof (proxy_evaluate_nonempty_lower ev H0 H1 H2 Hne) as H.
    split; [exact H | lia].
  - intros txs oev. split.
    + apply oracle_score_at_least_5.
    + intros Hne. unfold OracleInsight.evaluate.
      rewrite oracle_score_loop_sum.
      pose proof (oracle_scores_sum_lower oev txs) as H.
      destruct txs as [|tx rest]; [congruence|].
      simpl OracleInsight.transactions. simpl List.length in H. lia.
  - intros txs Hc. split.
    + intros tx Hin.
      assert (Htx : BotDetector.complete tx = true)
        by (apply (proj1 (forallb_forall _ _) Hc); assumption).
      destruct (bot_score_of_complete tx Htx) as (s & Hs & Hv).
      exists s. split; [assumption | lia].
    + intros Hne. unfold BotDetector.evaluate. simpl.
      destruct (bot_score_loop_complete txs Hc 0) as (total & -> & Hle).
      simpl. exists (Z.min 100 total). split; [reflexivity|].
      destruct txs as [|tx rest]; [congruence|].
      simpl List.length in Hle. lia.
Qed.

(** C10, the claim as written fails: the three scores are independent
    keyword arguments. With [score_large_out=1] a large outbound transfer
    scores 1, below the baseline of 5, and the list evaluates to 1, below
    [min(max_score, score_baseline) = 5]; with [score_baseline=0] a list of
    one ordinary transaction scores 0; with [score_baseline=-5] a list of
    two ordinary transactions scores -10, below the baseline. *)
Lemma score_below_baseline :
  ProxyResolver._evaluate_tx
    (ProxyResolver.evaluator_of ProxyResolver.config_small_large_out
                                [ProxyResolver.tx_large_out])
    ProxyResolver.tx_large_out = 1
  /\ ProxyResolver.evaluate
       (ProxyResolver.evaluator_of ProxyResolver.config_small_large_out
                                   [ProxyResolver.tx_large_out]) = 1
  /\ Z.min (ProxyResolver.cfg_max_score ProxyResolver.config_small_large_out)
           (ProxyResolver.cfg_score_baseline
              ProxyResolver.config_small_large_out) = 5
  /\ ProxyResolver.evaluate
       (ProxyResolver.evaluator_of ProxyResolver.config_zero_baseline
                                   [ProxyResolver.tx_plain]) = 0
  /\ ProxyResolver.evaluate
       (ProxyResolver.evaluator_of
          ProxyResolver.config_negative_baseline
          [ProxyResolver.tx_plain; ProxyResolver.tx_plain]) = -10.
Proof. repeat split. Qed.

Lemma nonempty_scores_at_least_baseline_witness :
  5 <= ProxyResolver.evaluate
         (ProxyResolver.evaluator_of ProxyResolver.default_config
                                     [ProxyResolver.tx_plain]).
Proof.
  apply (nonempty_scores_at_least_baseline
           (ProxyResolver.evaluator_of ProxyResolver.default_config
                                       [ProxyResolver.tx_plain])).
  - simpl. lia.
  - simpl. lia.
  - simpl. lia.
  - discriminate.
Defined.

End BaselineClaims.

Section BoundsAreTight.
Import ProxyResolver.

Lemma evaluate_singleton (cfg : Config) (tx : Tx) :
  0 <= evaluate (evaluator_of cfg [tx]) ->
  0 <= cfg_max_score cfg ->
  0 <= _evaluate_tx (evaluator_of cfg [tx]) tx.
Proof.
  unfold evaluate. cbn [transactions evaluator_of evaluate_loop max_score].
  set (s := _evaluate_tx _ tx).
  destruct (Z.leb_spec (cfg_max_score cfg) (0 + s)); lia.
Qed.

(** The assumptions of the amended C1 cannot be dropped: a configuration
    under which [evaluate] is non-negative on every list has a non-negative
    [max_score] and three non-negative rule scores. *)
Lemma evaluate_nonneg_needs_nonneg_config (cfg : Config) :
  (forall txs, 0 <= evaluate (evaluator_of cfg txs)) ->
  0 <= cfg_max_score cfg /\ nonneg_scores (evaluator_of cfg []).
Proof.
  intros H.
  assert (Hmax : 0 <= cfg_max_score cfg).
  { specialize (H []). unfold evaluate in H. simpl in H. lia. }
  split; [assumption|]. unfold nonneg_scores. simpl.
  split; [|split].
  - pose (tx := mkTx (cfg_large_out_threshold cfg + 1)%Q "out" "").
    pose proof (evaluate_singleton cfg tx (H [tx]) Hmax) as Hs.
    unfold _evaluate_tx, _score_tx in Hs.
    assert (E : is_large_out (evaluator_of cfg [tx]) tx = true).
    { apply is_large_out_spec. split; [reflexivity|]. simpl.
      rewrite <- (Qplus_0_r (cfg_large_out_threshold cfg)) at 1.
      apply Qplus_lt_r. reflexivity. }
    rewrite E in Hs. exact Hs.
  - pose (tx := mkTx (cfg_large_out_threshold cfg) "in" "unknown").
    exact (evaluate_singleton cfg tx (H [tx]) Hmax).
  - pose (tx := mkTx (cfg_large_out_threshold cfg) "in" "").
    exact (evaluate_singleton cfg tx (H [tx]) Hmax).
Qed.

End BoundsAreTight.

(** * Further properties of [wallet-core/proxy_resolver.py] *)

Section ProxyResolverMore.
Import ProxyResolver.

Lemma sumZ_perm (l l' : list Z) : Permutation l l' -> sumZ l = sumZ l'.
Proof. induction 1; simpl; lia. Qed.

(** The score of a transaction depends on the configuration only. *)
Lemma score_ignores_list (cfg : Config) (txs txs' : list Tx) (tx : Tx) :
  _score_tx (evaluator_of cfg txs) tx = _score_tx (evaluator_of cfg txs') tx.
Proof. reflexivity. Qed.

Lemma scores_sum_at_least (ev : WalletRiskEvaluator) (txs : list Tx) :
  score_baseline ev <= score_large_out ev ->
  score_baseline ev <= score_unknown_dest ev ->
  score_baseline ev * Z.of_nat (List.length txs)
  <= sumZ (map (_evaluate_tx ev) txs).
Proof.
  intros H1 H2. induction txs as [|tx rest IH]; simpl List.length; simpl.
  - lia.
  - destruct (_evaluate_tx_cases ev tx) as [E | [E | E]]; rewrite E; lia.
Qed.

(** X1. With non-negative rule scores the order of the transactions does not
    matter to [evaluate]. *)
Theorem evaluate_order_independent (cfg : Config) (txs txs' : list Tx) :
  0 <= cfg_score_large_out cfg ->
  0 <= cfg_score_unknown_dest cfg ->
  0 <= cfg_score_baseline cfg ->
  Permutation txs txs' ->
  evaluate (evaluator_of cfg txs) = evaluate (evaluator_of cfg txs').
Proof.
  intros H1 H2 H3 Hp. unfold evaluate.
  rewrite !evaluate_loop_clamped_sum by (unfold nonneg_scores; simpl; lia).
  cbn [transactions evaluator_of max_score].
  f_equal. f_equal.
  change (_evaluate_tx (evaluator_of cfg txs'))
    with (_evaluate_tx (evaluator_of cfg txs)).
  apply sumZ_perm. now apply Permutation_map.
Qed.

Lemma evaluate_order_independent_witness :
  evaluate (evaluator_of default_config [tx_large_out; tx_plain])
  = evaluate (evaluator_of default_config [tx_plain; tx_large_out]).
Proof.
  apply (evaluate_order_independent default_config); simpl; try lia.
  apply perm_swap.
Defined.

(** X2. With non-negative rule scores [evaluate] never decreases when
    transactions are added at the end of the list. *)
Theorem evaluate_monotone_extension (cfg : Config) (txs more : list Tx) :
  0 <= cfg_score_large_out cfg ->
  0 <= cfg_score_unknown_dest cfg ->
  0 <= cfg_score_baseline cfg ->
  evaluate (evaluator_of cfg txs) <= evaluate (evaluator_of cfg (txs ++ more)).
Proof.
  intros H1 H2 H3. unfold evaluate.
  assert (Hs : forall l, nonneg_scores (evaluator_of cfg l))
    by (intros l; unfold nonneg_scores; simpl; lia).
  rewrite !evaluate_loop_clamped_sum by apply Hs.
  cbn [transactions evaluator_of max_score].
  rewrite map_app, sumZ_app.
  change (_evaluate_tx (evaluator_of cfg (txs ++ more)))
    with (_evaluate_tx (evaluator_of cfg txs)).
  pose proof (scores_sum_nonneg (evaluator_of cfg txs) more (Hs txs)).
  lia.
Qed.

Lemma evaluate_monotone_extension_witness :
  evaluate (evaluator_of default_config [tx_plain])
  <= evaluate (evaluator_of default_config ([tx_plain] ++ [tx_unknown])).
Proof.
  apply (evaluate_monotone_extension default_config); simpl; lia.
Defined.

(** X3. When the baseline is non-negative and the smallest rule score, a list
    long enough for its baselines alone to reach [max_score] evaluates to
    exactly [max_score]. *)
Theorem evaluate_saturates (ev : WalletRiskEvaluator) :
  0 <= score_baseline ev ->
  score_baseline ev <= score_large_out ev ->
  score_baseline ev <= score_unknown_dest ev ->
  max_score ev
  <= score_baseline ev * Z.of_nat (List.length (transactions ev)) ->
  evaluate ev = max_score ev.
Proof.
  intros H0 H1 H2 Hlen. unfold evaluate.
  rewrite evaluate_loop_clamped_sum by (unfold nonneg_scores; lia).
  pose proof (scores_sum_at_least ev (transactions ev) H1 H2). lia.
Qed.

Lemma evaluate_saturates_witness :
  evaluate (evaluator_of default_config (repeat tx_plain 20)) = 100.
Proof.
  apply (evaluate_saturates (evaluator_of default_config (repeat tx_plain 20)));
    simpl; lia.
Defined.

Lemma evaluate_loop_max_or_sum (ev : WalletRiskEvaluator) (txs : list Tx) :
  forall total,
    evaluate_loop ev total txs = max_score ev
    \/ evaluate_loop ev total txs
       = total + sumZ (map (_evaluate_tx ev) txs).
Proof.
  induction txs as [|tx rest IH]; intros total; simpl.
  - destruct (Z.le_ge_cases (max_score ev) total); [left | right]; lia.
  - destruct (max_score ev <=? total + _evaluate_tx ev tx); [now left|].
    destruct (IH (total + _evaluate_tx ev tx)) as [E | E]; rewrite E;
      [left | right]; lia.
Qed.

(** X4. Whatever the configuration, [evaluate] returns [max_score] or the
    exact sum of the scores of all transactions, and the total of
    [evaluate_detailed] is the same number. *)
Theorem evaluate_is_cap_or_sum (ev : WalletRiskEvaluator) :
  (evaluate ev = max_score ev \/ evaluate ev = sumZ (all_scores ev))
  /\ (fst (evaluate_detailed ev) = max_score ev
      \/ fst (evaluate_detailed ev) = sumZ (all_scores ev)).
Proof.
  assert (H : evaluate ev = max_score ev \/ evaluate ev = sumZ (all_scores ev)).
  { unfold evaluate, all_scores.
    destruct (evaluate_loop_max_or_sum ev (transactions ev) 0) as [E | E];
      [now left | right; rewrite E; lia]. }
  split; [exact H|].
  unfold evaluate_detailed. rewrite evaluate_detailed_loop_total. exact H.
Qed.

(** X5. Every entry of the details of [evaluate_detailed] belongs to a
    transaction of the list, and its reason tag and score are those of the
    cascade: [large_out] with [score_large_out] for a large outbound
    transfer, else [unknown_destination] with [score_unknown_dest] for a
    destination matching the pattern, else [baseline] with
    [score_baseline]. *)
Theorem details_are_cascade_entries
    (ev : WalletRiskEvaluator) (tx : Tx) (s : Z) (why : string) :
  In (tx, s, why) (snd (evaluate_detailed ev)) ->
  In tx (transactions ev)
  /\ ((why = "large_out" /\ s = score_large_out ev /\ large_outbound ev tx)
      \/ (why = "unknown_destination" /\ s = score_unknown_dest ev
          /\ ~ large_outbound ev tx /\ unknown_pattern (destination tx))
      \/ (why = "baseline" /\ s = score_baseline ev
          /\ ~ large_outbound ev tx /\ ~ unknown_pattern (destination tx))).
Proof.
  intros Hin.
  destruct (evaluate_detailed_loop_prefix ev (transactions ev) 0 [])
    as (k & _ & Hd & _).
  fold (evaluate_detailed ev) in Hd. simpl in Hd. rewrite Hd in Hin.
  apply in_map_iff in Hin. destruct Hin as (tx0 & Heq & Hin0).
  unfold detail_of in Heq. injection Heq as -> Hs Hw.
  split.
  - rewrite <- (firstn_skipn k (transactions ev)). apply in_or_app. now left.
  - pose proof (is_large_out_spec ev tx) as Hl.
    pose proof (_unknown_re_match_spec (destination tx)) as Hu.
    unfold _score_tx in Hs, Hw.
    destruct (is_large_out ev tx).
    + left. simpl in *. subst. repeat split; apply Hl; reflexivity.
    + assert (Hnl : ~ large_outbound ev tx)
        by (intros H; apply Hl in H; discriminate).
      destruct (_unknown_re_match (destination tx)).
      * right; left. simpl in *. subst. repeat split; tauto.
      * right; right. simpl in *. subst.
        repeat split; try tauto; intros H; apply Hu in H; discriminate.
Qed.

Lemma details_are_cascade_entries_witness :
  In tx_unknown [tx_plain; tx_unknown].
Proof.
  apply (details_are_cascade_entries
           (evaluator_of default_config [tx_plain; tx_unknown])
           tx_unknown 15 "unknown_destination").
  vm_compute. right. left. reflexivity.
Defined.

End ProxyResolverMore.

Section ConstructionFacts.
Import ProxyResolver ProxyResolverDemo.

Lemma lower_idempotent (s : string) : lower (lower s) = lower s.
Proof.
  induction s as [|c s IH]; simpl; [reflexivity|].
  now rewrite lower_char_idempotent, IH.
Qed.

Lemma sanitize_all_nth (raws : list TxDict) :
  forall txs,
    sanitize_all raws = Ok txs ->
    List.length txs = List.length raws
    /\ forall i raw, nth_error raws i = Some raw ->
         exists tx, nth_error txs i = Some tx /\ sanitize raw = Ok tx.
Proof.
  induction raws as [|t rest IH]; simpl; intros txs H.
  - injection H as <-. split; [reflexivity|].
    intros [|i] raw Hi; discriminate.
  - destruct (sanitize t) as [tx|] eqn:Et; simpl in H; [|discriminate].
    destruct (sanitize_all rest) as [txs'|]; simpl in H; [|discriminate].
    injection H as <-. destruct (IH txs' eq_refl) as [Hlen Hnth].
    split; [simpl; now rewrite Hlen|].
    intros [|i] raw Hi; simpl in *.
    + injection Hi as <-. eauto.
    + now apply Hnth.
Qed.

(** X6. When [__init__] returns, it has kept one transaction per input
    dictionary, in order. The stored amount is [float] of the amount given
    (of 0.0 without one): the same number when that is an integer of
    magnitude up to 2^53. The stored type is the type given (the empty
    string without one) with every capital replaced by the letter 32 code
    points above it, and holds no capital. The stored destination is the
    destination given (the empty string without one). *)
Theorem init_normalises
    (raws : list TxDict) (cfg : Config) (ev : WalletRiskEvaluator) :
  __init__ raws cfg = Ok ev ->
  List.length (transactions ev) = List.length raws
  /\ (forall i raw, nth_error raws i = Some raw ->
        exists tx,
          nth_error (transactions ev) i = Some tx
          /\ py_float (get (d_amount raw) 0%Q) = Ok (amount tx)
          /\ (forall z, (get (d_amount raw) 0 == inject_Z z)%Q ->
                        Z.abs z <= 2 ^ 53 -> amount tx = inject_Z z)
          /\ lowered (get (d_type raw) "") (type tx) = true
          /\ no_capital (type tx) = true
          /\ destination tx = get (d_destination raw) "").
Proof.
  unfold __init__.
  destruct (py_float (cfg_large_out_threshold cfg)) as [thr|]; simpl;
    [|discriminate].
  destruct (sanitize_all raws) as [txs|] eqn:Es; simpl; [|discriminate].
  intros H. injection H as <-. cbn [transactions].
  destruct (sanitize_all_nth raws txs Es) as [Hlen Hnth].
  split; [exact Hlen|].
  intros i raw Hi. destruct (Hnth i raw Hi) as (tx & Htx & Hs).
  exists tx. split; [exact Htx|].
  unfold sanitize in Hs.
  destruct (py_float (get (d_amount raw) 0%Q)) as [a|] eqn:Ea; simpl in Hs;
    [|discriminate].
  injection Hs as <-. cbn [amount type destination].
  split; [reflexivity|]. split; [|split; [|split]].
  - intros z Hz Habs.
    rewrite (py_float_compat _ _ Hz), (py_float_int_exact z Habs) in Ea.
    now injection Ea as <-.
  - apply lower_lowered.
  - apply lower_no_capital.
  - reflexivity.
Qed.

Lemma init_normalises_witness :
  List.length
    (transactions
       (evaluator_of default_config [mkTx (9007199254740992 # 1) "out" ""]))
  = List.length
      [mkTxDict (Some (9007199254740993 # 1)) (Some "OUT") None None].
Proof.
  apply (init_normalises
           [mkTxDict (Some (9007199254740993 # 1)) (Some "OUT") None None]
           default_config
           (evaluator_of default_config
                         [mkTx (9007199254740992 # 1) "out" ""])).
  vm_compute. reflexivity.
Defined.

Lemma Qgtb_compat (a a' b : Q) : (a == a')%Q -> Qgtb a b = Qgtb a' b.
Proof.
  intros E. unfold Qgtb. f_equal.
  destruct (Qle_bool a b) eqn:E1, (Qle_bool a' b) eqn:E2; try reflexivity.
  - apply Qle_bool_iff in E1. rewrite E in E1.
    apply Qle_bool_iff in E1. congruence.
  - apply Qle_bool_iff in E2. rewrite <- E in E2.
    apply Qle_bool_iff in E2. congruence.
Qed.

Lemma sanitize_same_after_defaults (t t' : TxDict) :
  same_after_defaults t t' -> sanitize t = sanitize t'.
Proof.
  intros (Ha & Hty & Hd). unfold sanitize.
  now rewrite (py_float_compat _ _ Ha), Hty, Hd.
Qed.

Lemma sanitize_all_same_after_defaults (raws raws' : list TxDict) :
  Forall2 same_after_defaults raws raws' ->
  sanitize_all raws = sanitize_all raws'.
Proof.
  induction 1 as [|t t' l l' Ht _ IH]; simpl; [reflexivity|].
  now rewrite (sanitize_same_after_defaults t t' Ht), IH.
Qed.

(** The loop of [evaluate] sees a list through its scores only. *)
Lemma evaluate_loop_scores (ev ev' : WalletRiskEvaluator) (txs txs' : list Tx) :
  max_score ev = max_score ev' ->
  map (_evaluate_tx ev) txs = map (_evaluate_tx ev') txs' ->
  forall total, evaluate_loop ev total txs = evaluate_loop ev' total txs'.
Proof.
  intros Hmax. revert txs'.
  induction txs as [|tx rest IH]; intros [|tx' rest'] Hm total;
    try discriminate; simpl; [now rewrite Hmax|].
  simpl in Hm. injection Hm as Hs Hrest. rewrite <- Hs, <- Hmax.
  destruct (max_score ev <=? total + _evaluate_tx ev tx); [reflexivity|].
  now apply IH.
Qed.

(** X7. Construction makes these differences in the input invisible: the case
    of the type, a missing key instead of the key with its default, and
    two ways of writing the same amount. Two inputs that differ only so
    evaluate to the same score. *)
Theorem init_ignores_case_and_defaults
    (raws raws' : list TxDict) (cfg : Config) :
  Forall2 same_after_defaults raws raws' ->
  (ev <- __init__ raws cfg ;; Ok (evaluate ev))
  = (ev <- __init__ raws' cfg ;; Ok (evaluate ev))
  /\ (ev <- __init__ raws cfg ;; Ok (fst (evaluate_detailed ev)))
     = (ev <- __init__ raws' cfg ;; Ok (fst (evaluate_detailed ev))).
Proof.
  intros HF. unfold __init__.
  now rewrite (sanitize_all_same_after_defaults raws raws' HF).
Qed.

Lemma init_ignores_case_and_defaults_witness :
  (ev <- __init__ [empty_dict; mkTxDict (Some (20000 # 1)) (Some "OUT") None None]
                  default_config ;;
   Ok (evaluate ev))
  = (ev <- __init__ [mkTxDict (Some 0%Q) (Some "") (Some "") None;
                     mkTxDict (Some (40000 # 2)) (Some "out") (Some "") None]
                    default_config ;;
     Ok (evaluate ev)).
Proof.
  apply (init_ignores_case_and_defaults
           [empty_dict; mkTxDict (Some (20000 # 1)) (Some "OUT") None None]
           [mkTxDict (Some 0%Q) (Some "") (Some "") None;
            mkTxDict (Some (40000 # 2)) (Some "out") (Some "") None]
           default_config).
  repeat constructor.
Defined.

(** *** The pattern ignores case *)

Lemma lower_char_underscore (c : ascii) :
  Ascii.eqb (lower_char c) "_"%char = Ascii.eqb c "_"%char.
Proof. destruct c as [[] [] [] [] [] [] [] []]; reflexivity. Qed.

Lemma lower_char_newline (c : ascii) :
  Ascii.eqb (lower_char c) newline = Ascii.eqb c newline.
Proof. destruct c as [[] [] [] [] [] [] [] []]; reflexivity. Qed.

Lemma underscore_or_end_lower (rest : string) :
  underscore_or_end (lower rest) = underscore_or_end rest.
Proof.
  destruct rest as [|c r]; simpl; [reflexivity|].
  rewrite lower_char_underscore, lower_char_newline.
  destruct r; reflexivity.
Qed.

Lemma match_literal_ci_lower (lit s : string) :
  match_literal_ci lit (lower s) = option_map lower (match_literal_ci lit s).
Proof.
  revert s. induction lit as [|p lit IH]; intros s; simpl; [reflexivity|].
  destruct s as [|c s]; simpl; [reflexivity|].
  unfold char_matches_ci. rewrite lower_char_idempotent.
  destruct (Ascii.eqb (lower_char p) (lower_char c)); [apply IH | reflexivity].
Qed.

Lemma _unknown_re_match_lower (s : string) :
  _unknown_re_match (lower s) = _unknown_re_match s.
Proof.
  unfold _unknown_re_match. rewrite match_literal_ci_lower.
  destruct (match_literal_ci "unknown" s); simpl; [|reflexivity].
  apply underscore_or_end_lower.
Qed.

(** X8. [re.IGNORECASE]: two destinations that differ only in the case of
    their letters are both matched by the unknown-destination pattern or
    both not, so they score alike. *)
Theorem unknown_pattern_ignores_case
    (ev : WalletRiskEvaluator) (a : Q) (ty d d' : string) :
  lower d = lower d' ->
  _unknown_re_match d = _unknown_re_match d'
  /\ fst (_score_tx ev (mkTx a ty d)) = fst (_score_tx ev (mkTx a ty d')).
Proof.
  intros E.
  assert (H : _unknown_re_match d = _unknown_re_match d')
    by (rewrite <- (_unknown_re_match_lower d), E;
        apply _unknown_re_match_lower).
  split; [exact H|].
  unfold _score_tx, is_large_out. simpl. rewrite H. reflexivity.
Qed.

Lemma unknown_pattern_ignores_case_witness :
  _unknown_re_match "UnKnOwN_Wallet" = _unknown_re_match "unknown_wallet".
Proof.
  apply (unknown_pattern_ignores_case
           (evaluator_of default_config []) 0%Q "in"
           "UnKnOwN_Wallet" "unknown_wallet").
  reflexivity.
Defined.

End ConstructionFacts.

(** * Further properties of [wallet-core/python/ai/bot_detector.py] *)

Section BotDetectorMore.
Import BotDetector.

Lemma Qgtb_false_le (a b : Q) : Qgtb a b = false <-> (a <= b)%Q.
Proof.
  unfold Qgtb. rewrite negb_false_iff. apply Qle_bool_iff.
Qed.

Lemma Qgtb_cases (a b : Q) :
  (Qgtb a b = true /\ (b < a)%Q /\ ~ (a <= b)%Q)
  \/ (Qgtb a b = false /\ (a <= b)%Q /\ ~ (b < a)%Q).
Proof.
  destruct (Qgtb a b) eqn:E; [left | right]; split; try reflexivity.
  - apply Qgtb_lt in E. split; [assumption | now apply Qlt_not_le].
  - apply Qgtb_false_le in E. split; [assumption | now apply Qle_not_lt].
Qed.

(** Closes one case of the analysis of [_evaluate_tx]: the keys present
    and the tests taken are known, what is left is propositional. *)
Ltac bot_cases :=
  repeat split; intros;
  repeat match goal with
         | H : exists _, _ |- _ => destruct H
         | H : _ /\ _ |- _ => destruct H
         | H : _ \/ _ |- _ => destruct H
         | H : Some _ = Some _ |- _ => injection H as H; subst
         | H : Raise _ = Raise _ |- _ => injection H as H; subst
         end;
  try discriminate; try congruence; try contradiction; eauto 10.

(** X9. Which [KeyError] [_evaluate_tx] raises, and when. A missing
    ['amount'] always raises; a missing ['type'] raises only when the
    amount is above 10000; a missing ['destination'] raises unless the
    transaction is a large outbound transfer, which scores 20 before the
    destination is read. No other exception is raised. *)
Theorem bot_evaluate_tx_errors (tx : TxDict) :
  (_evaluate_tx tx = Raise (KeyError "amount") <-> d_amount tx = None)
  /\ (_evaluate_tx tx = Raise (KeyError "type") <->
      exists a, d_amount tx = Some a /\ (10000 # 1 < a)%Q
                /\ d_type tx = None)
  /\ (_evaluate_tx tx = Raise (KeyError "destination") <->
      exists a, d_amount tx = Some a /\ d_destination tx = None
                /\ ((a <= 10000 # 1)%Q
                    \/ exists ty, d_type tx = Some ty /\ ty <> "out"))
  /\ (forall e, _evaluate_tx tx = Raise e ->
        e = KeyError "amount" \/ e = KeyError "type"
        \/ e = KeyError "destination")
  /\ (forall a, d_amount tx = Some a -> (10000 # 1 < a)%Q ->
        d_type tx = Some "out" -> _evaluate_tx tx = Ok 20).
Proof.
  unfold _evaluate_tx.
  destruct (d_amount tx) as [a|]; simpl; [|bot_cases].
  destruct (Qgtb_cases a (10000 # 1)) as [(-> & Hlt & Hnle) | (-> & Hle & Hnlt)];
    simpl;
    destruct (d_type tx) as [ty|]; simpl;
    try destruct (String.eqb_spec ty "out"); simpl;
    destruct (d_destination tx) as [d|]; simpl;
    try destruct (startswith d "unknown_"); simpl;
    bot_cases.
Qed.

Lemma bot_evaluate_tx_errors_witness :
  _evaluate_tx (mkTxDict (Some (20000 # 1)) (Some "out") None None) = Ok 20.
Proof.
  apply (proj2 (proj2 (proj2 (proj2
           (bot_evaluate_tx_errors
              (mkTxDict (Some (20000 # 1)) (Some "out") None None)))))
         (20000 # 1)); reflexivity.
Defined.

Lemma bot_score_loop_outcome (txs : list TxDict) :
  forall score,
    (exists ss,
       Forall2 (fun t s => _evaluate_tx t = Ok s) txs ss
       /\ score_loop score txs = Ok (score + sumZ ss))
    \/ (exists pre tx rest e,
          txs = (pre ++ tx :: rest)%list
          /\ Forall (fun t => exists s, _evaluate_tx t = Ok s) pre
          /\ _evaluate_tx tx = Raise e
          /\ score_loop score txs = Raise e).
Proof.
  induction txs as [|tx rest IH]; intros score.
  - left. exists []. split; [constructor | simpl; f_equal; lia].
  - simpl. destruct (_evaluate_tx tx) as [s|e] eqn:Etx; simpl.
    + destruct (IH (score + s)) as [(ss & HF & Hs) | (pre & t & r & e & -> & Hp & He & Hs)].
      * left. exists (s :: ss). split; [now constructor|].
        rewrite Hs. simpl. f_equal. lia.
      * right. exists (tx :: pre), t, r, e. repeat split; auto.
        constructor; eauto.
    + right. exists [], tx, rest, e. repeat split; auto.
Qed.

(** X10. The outcome of [evaluate]: when every transaction can be scored it is
    the sum of the scores capped at 100; otherwise it is the exception of
    the first transaction, in list order, that cannot be scored, whatever
    comes after it. *)
Theorem bot_evaluate_outcome (txs : list TxDict) :
  (exists ss,
     Forall2 (fun t s => _evaluate_tx t = Ok s) txs ss
     /\ evaluate (mkEvaluator txs) = Ok (Z.min 100 (sumZ ss)))
  \/ (exists pre tx rest e,
        txs = (pre ++ tx :: rest)%list
        /\ Forall (fun t => exists s, _evaluate_tx t = Ok s) pre
        /\ _evaluate_tx tx = Raise e
        /\ evaluate (mkEvaluator txs) = Raise e).
Proof.
  unfold evaluate. simpl.
  destruct (bot_score_loop_outcome txs 0)
    as [(ss & HF & Hs) | (pre & t & r & e & Heq & Hp & He & Hs)]; rewrite Hs.
  - left. exists ss. split; [assumption | reflexivity].
  - right. exists pre, t, r, e. auto.
Qed.

End BotDetectorMore.

(** * The three variants compared *)

Section Variants.

Lemma prefix_split (p s : string) :
  String.prefix p s = true -> exists r, s = (p ++ r)%string.
Proof.
  revert p. induction s as [|c s IH]; intros [|a p]; simpl; try discriminate.
  - exists "". reflexivity.
  - exists (String c s). reflexivity.
  - destruct (ascii_dec a c) as [-> |]; [|discriminate].
    intros H. destruct (IH p H) as (r & ->). exists r. reflexivity.
Qed.

(** A destination with the prefix [unknown_], which the two simpler
    variants test, is matched by the pattern of [proxy_resolver.py]. *)
Lemma startswith_unknown_matches (d : string) :
  startswith d "unknown_" = true -> ProxyResolver._unknown_re_match d = true.
Proof.
  intros H. apply prefix_split in H. destruct H as (r & ->). reflexivity.
Qed.

Lemma out_is_lower (ty : string) : ty = "out" -> lower ty = "out".
Proof. intros ->. reflexivity. Qed.

(** What [float] makes of an amount above 10000 that is an [int] or a
    [float] is above 10000. *)
Lemma float_keeps_large (x a : Q) :
  ProxyResolver.int_or_float x ->
  py_float x = Ok a ->
  Qgtb x (10000 # 1) = true -> Qgtb a (10000 # 1) = true.
Proof.
  intros [(z & Hz) | (a' & Ha' & Heq)] Hf Hgt.
  - apply Qgtb_lt. apply Qgtb_lt in Hgt.
    rewrite (py_float_compat _ _ Hz) in Hf.
    apply (py_float_int_above z 10000 a); [lia | | exact Hf].
    rewrite Hz in Hgt. unfold Qlt, inject_Z in Hgt. simpl in Hgt. lia.
  - rewrite Hf in Ha'. injection Ha' as <-.
    now rewrite (Qgtb_compat _ _ _ Heq).
Qed.

Lemma bot_score_le_proxy (tx : TxDict) (ptx : ProxyResolver.Tx) :
  BotDetector.complete tx = true ->
  ProxyResolver.int_or_float (get (d_amount tx) 0%Q) ->
  ProxyResolver.sanitize tx = Ok ptx ->
  exists s,
    BotDetector._evaluate_tx tx = Ok s
    /\ s <= ProxyResolver._evaluate_tx
              (ProxyResolver.evaluator_of ProxyResolver.default_config [])
              ptx.
Proof.
  unfold BotDetector.complete, BotDetector._evaluate_tx.
  unfold ProxyResolver._evaluate_tx, ProxyResolver._score_tx,
    ProxyResolver.is_large_out, ProxyResolver.sanitize.
  destruct (d_amount tx) as [a|]; [|discriminate].
  destruct (d_type tx) as [ty|]; [|discriminate].
  destruct (d_destination tx) as [d|]; [|discriminate].
  intros _ Hnum. simpl in Hnum |- *.
  destruct (py_float a) as [a'|] eqn:Ea; simpl; [|discriminate].
  intros H. injection H as <-. simpl.
  pose proof (startswith_unknown_matches d) as Hp.
  pose proof (float_keeps_large a a' Hnum Ea) as Hl.
  destruct (Qgtb a (10000 # 1)); simpl.
  - rewrite Hl by reflexivity.
    destruct (String.eqb_spec ty "out") as [E | Hne]; simpl.
    + rewrite (out_is_lower ty E). simpl. eexists. split; [reflexivity | lia].
    + rewrite andb_true_r.
      destruct (startswith d "unknown_"); simpl.
      * rewrite Hp by reflexivity.
        destruct (String.eqb (lower ty) "out"); simpl;
          eexists; (split; [reflexivity | lia]).
      * destruct (String.eqb (lower ty) "out"),
          (ProxyResolver._unknown_re_match d); simpl;
          eexists; (split; [reflexivity | lia]).
  - destruct (startswith d "unknown_"); simpl.
    + rewrite Hp by reflexivity.
      destruct (String.eqb (lower ty) "out" && Qgtb a' (10000 # 1)); simpl;
        eexists; (split; [reflexivity | lia]).
    + destruct (String.eqb (lower ty) "out" && Qgtb a' (10000 # 1)),
        (ProxyResolver._unknown_re_match d); simpl;
        eexists; (split; [reflexivity | lia]).
Qed.

Lemma bot_score_loop_below_proxy (txs : list TxDict) :
  forallb BotDetector.complete txs = true ->
  Forall (fun t => ProxyResolver.int_or_float (get (d_amount t) 0%Q)) txs ->
  forall ptxs,
    ProxyResolver.sanitize_all txs = Ok ptxs ->
    forall score,
    exists total,
      BotDetector.score_loop score txs = Ok total
      /\ total
         <= score
            + sumZ (map (ProxyResolver._evaluate_tx
                           (ProxyResolver.evaluator_of
                              ProxyResolver.default_config []))
                        ptxs).
Proof.
  induction txs as [|t rest IH]; simpl; intros Hc Hnum ptxs Hs score.
  - injection Hs as <-. exists score. split; [reflexivity | simpl; lia].
  - apply andb_true_iff in Hc. destruct Hc as [Hct Hcr].
    inversion Hnum as [|? ? Hnt Hnr]; subst.
    destruct (ProxyResolver.sanitize t) as [ptx|] eqn:Et; simpl in Hs;
      [|discriminate].
    destruct (ProxyResolver.sanitize_all rest) as [prest|]; simpl in Hs;
      [|discriminate].
    injection Hs as <-.
    destruct (bot_score_le_proxy t ptx Hct Hnt Et) as (s & -> & Hle). simpl.
    destruct (IH Hcr Hnr prest eq_refl (score + s)) as (total & -> & Ht).
    exists total. split; [reflexivity | lia].
Qed.

Lemma bot_score_le_oracle
    (ev : OracleInsight.WalletRiskEvaluator) (o : OracleInsight.TxObj) :
  BotDetector.complete (OracleInsight.fields o) = true ->
  exists s,
    BotDetector._evaluate_tx (OracleInsight.fields o) = Ok s
    /\ s <= OracleInsight._evaluate_tx ev o.
Proof.
  unfold BotDetector.complete, BotDetector._evaluate_tx.
  unfold OracleInsight._evaluate_tx, OracleInsight.risk_points,
    OracleInsight.rule1, OracleInsight.rule2, OracleInsight.rule4.
  destruct (d_amount (OracleInsight.fields o)) as [a|]; [|discriminate].
  destruct (d_type (OracleInsight.fields o)) as [ty|]; [|discriminate].
  destruct (d_destination (OracleInsight.fields o)) as [d|]; [|discriminate].
  intros _. simpl.
  destruct (Qgtb a (10000 # 1)), (String.eqb ty "out"),
    (startswith d "unknown_"), (OracleInsight._is_high_frequency ev o),
    (OracleInsight._is_blacklisted d); simpl;
    eexists; (split; [reflexivity | lia]).
Qed.

Lemma bot_score_loop_below {A : Type} (f : A -> Z) (proj : A -> TxDict)
    (l : list A) :
  (forall x, In x l ->
     exists s, BotDetector._evaluate_tx (proj x) = Ok s /\ s <= f x) ->
  forall score,
  exists total,
    BotDetector.score_loop score (map proj l) = Ok total
    /\ total <= score + sumZ (map f l).
Proof.
  induction l as [|x l IH]; intros H score; simpl.
  - exists score. split; [reflexivity | lia].
  - destruct (H x (or_introl eq_refl)) as (s & -> & Hs). simpl.
    destruct (IH (fun y Hy => H y (or_intror Hy)) (score + s))
      as (total & -> & Ht).
    exists total. split; [reflexivity | lia].
Qed.

(** X11. On input dictionaries that have the three keys and an amount
    that is an [int] or a [float], whenever [proxy_resolver.py] can be
    constructed under its default configuration, [bot_detector.py] does
    not score the list higher than it: the former lowers the case of the
    type and matches more destinations. *)
Theorem bot_never_above_proxy
    (txs : list TxDict) (ev : ProxyResolver.WalletRiskEvaluator) :
  forallb BotDetector.complete txs = true ->
  Forall (fun t => ProxyResolver.int_or_float (get (d_amount t) 0%Q)) txs ->
  ProxyResolver.__init__ txs ProxyResolver.default_config = Ok ev ->
  exists s,
    BotDetector.evaluate (BotDetector.mkEvaluator txs) = Ok s
    /\ s <= ProxyResolver.evaluate ev.
Proof.
  intros Hc Hnum. unfold ProxyResolver.__init__.
  assert (Et : py_float
                 (ProxyResolver.cfg_large_out_threshold
                    ProxyResolver.default_config) = Ok (10000 # 1))
    by (vm_compute; reflexivity).
  rewrite Et. simpl bind.
  destruct (ProxyResolver.sanitize_all txs) as [ptxs|] eqn:Es; simpl;
    [|discriminate].
  intros H. injection H as <-.
  destruct (bot_score_loop_below_proxy txs Hc Hnum ptxs Es 0)
    as (total & Ht & Hle).
  unfold BotDetector.evaluate. simpl. rewrite Ht. simpl.
  eexists. split; [reflexivity|].
  change (ProxyResolver.mkEvaluator (10000 # 1) 20 15 5 100 ptxs)
    with (ProxyResolver.evaluator_of ProxyResolver.default_config ptxs).
  unfold ProxyResolver.evaluate.
  rewrite evaluate_loop_clamped_sum
    by (unfold ProxyResolver.nonneg_scores; simpl; lia).
  cbn [ProxyResolver.transactions ProxyResolver.evaluator_of
       ProxyResolver.max_score ProxyResolver.cfg_max_score
       ProxyResolver.default_config].
  change (ProxyResolver._evaluate_tx
            (ProxyResolver.evaluator_of ProxyResolver.default_config ptxs))
    with (ProxyResolver._evaluate_tx
            (ProxyResolver.evaluator_of ProxyResolver.default_config [])).
  lia.
Qed.

Lemma bot_never_above_proxy_witness :
  exists s,
    BotDetector.evaluate
      (BotDetector.mkEvaluator
         [mkTxDict (Some (20000 # 1)) (Some "OUT") (Some "UNKNOWN") None])
    = Ok s
    /\ s <= ProxyResolver.evaluate
              (ProxyResolver.evaluator_of
                 ProxyResolver.default_config
                 [ProxyResolver.mkTx (20000 # 1) "out" "UNKNOWN"]).
Proof.
  apply (bot_never_above_proxy
           [mkTxDict (Some (20000 # 1)) (Some "OUT") (Some "UNKNOWN") None]).
  - reflexivity.
  - constructor; [left; exists 20000; reflexivity | constructor].
  - vm_compute. reflexivity.
Defined.

(** X12. On input dictionaries that have the three keys, [bot_detector.py]
    never scores a list higher than [oracle_insight.py] does: the additive
    rules give at least the points of the first rule that matches. *)
Theorem bot_never_above_oracle (objs : list OracleInsight.TxObj) :
  forallb BotDetector.complete (map OracleInsight.fields objs) = true ->
  exists s,
    BotDetector.evaluate
      (BotDetector.mkEvaluator (map OracleInsight.fields objs)) = Ok s
    /\ s <= OracleInsight.evaluate (OracleInsight.mkEvaluator objs).
Proof.
  intros Hc.
  set (ev := OracleInsight.mkEvaluator objs).
  destruct (bot_score_loop_below (OracleInsight._evaluate_tx ev)
              OracleInsight.fields objs) with (score := 0)
    as (total & Ht & Hle).
  { intros o Hin. apply bot_score_le_oracle.
    apply (proj1 (forallb_forall _ _) Hc). now apply in_map. }
  unfold BotDetector.evaluate. simpl. rewrite Ht. simpl.
  eexists. split; [reflexivity|].
  unfold OracleInsight.evaluate. rewrite oracle_score_loop_sum.
  simpl OracleInsight.transactions. lia.
Qed.

Lemma bot_never_above_oracle_witness :
  exists s,
    BotDetector.evaluate
      (BotDetector.mkEvaluator
         (map OracleInsight.fields [OracleInsight.obj_unknown])) = Ok s
    /\ s <= OracleInsight.evaluate
              (OracleInsight.mkEvaluator [OracleInsight.obj_unknown]).
Proof.
  apply (bot_never_above_oracle [OracleInsight.obj_unknown]). reflexivity.
Defined.

End Variants.

(** * Further properties of [wallet-core/oracle_insight.py] *)

Section OracleInsightMore.
Import OracleInsight OracleInsightDemo.

Lemma filter_length_perm {A : Type} (f : A -> bool) (l l' : list A) :
  Permutation l l' ->
  List.length (filter f l) = List.length (filter f l').
Proof.
  induction 1 as [|x l l' _ IH|x y l|l l' l'' _ IH1 _ IH2]; simpl.
  - reflexivity.
  - destruct (f x); simpl; now rewrite IH.
  - destruct (f x), (f y); reflexivity.
  - now rewrite IH1.
Qed.

Lemma _is_high_frequency_perm (txs txs' : list TxObj) (tx : TxObj) :
  Permutation txs txs' ->
  _is_high_frequency (mkEvaluator txs) tx
  = _is_high_frequency (mkEvaluator txs') tx.
Proof.
  intros Hp. unfold _is_high_frequency. simpl.
  destruct (d_timestamp (fields tx)) as [t|]; [|reflexivity].
  now rewrite !count_loop_filter, (filter_length_perm _ _ _ Hp).
Qed.

Lemma oracle_score_perm (txs txs' : list TxObj) (tx : TxObj) :
  Permutation txs txs' ->
  _evaluate_tx (mkEvaluator txs) tx = _evaluate_tx (mkEvaluator txs') tx.
Proof.
  intros Hp. unfold _evaluate_tx, risk_points.
  now rewrite (_is_high_frequency_perm _ _ tx Hp).
Qed.

(** X13. The order of the list matters neither to the score of a transaction
    nor to [evaluate]. *)
Theorem oracle_evaluate_order_independent (txs txs' : list TxObj) :
  Permutation txs txs' ->
  (forall tx, _evaluate_tx (mkEvaluator txs) tx
              = _evaluate_tx (mkEvaluator txs') tx)
  /\ evaluate (mkEvaluator txs) = evaluate (mkEvaluator txs').
Proof.
  intros Hp. split.
  - intros tx. now apply oracle_score_perm.
  - unfold evaluate. rewrite !oracle_score_loop_sum. simpl transactions.
    f_equal. f_equal.
    rewrite (map_ext _ (_evaluate_tx (mkEvaluator txs')))
      by (intros tx; now apply oracle_score_perm).
    apply sumZ_perm. now apply Permutation_map.
Qed.

Lemma oracle_evaluate_order_independent_witness :
  evaluate (mkEvaluator (same_time_batch 0 4))
  = evaluate (mkEvaluator (rev (same_time_batch 0 4))).
Proof.
  apply (oracle_evaluate_order_independent
           (same_time_batch 0 4) (rev (same_time_batch 0 4))).
  apply Permutation_rev.
Defined.

Lemma oracle_score_at_most_70 (ev : WalletRiskEvaluator) (tx : TxObj) :
  _evaluate_tx ev tx <= 70.
Proof.
  unfold _evaluate_tx, risk_points.
  destruct (rule1 tx), (rule2 tx), (_is_high_frequency ev tx), (rule4 tx);
    simpl; lia.
Qed.

Lemma oracle_scores_sum_upper (ev : WalletRiskEvaluator) (txs : list TxObj) :
  sumZ (map (_evaluate_tx ev) txs) <= 70 * Z.of_nat (List.length txs).
Proof.
  induction txs as [|tx rest IH]; simpl List.length; simpl; [lia|].
  pose proof (oracle_score_at_most_70 ev tx). lia.
Qed.

(** X14. A transaction scores between 5 and 70, in steps of 5, so a list of
    [n] transactions evaluates to between [min(100, 5n)] and
    [min(100, 70n)]: every list of 20 or more transactions scores 100. *)
Theorem oracle_evaluate_range (ev : WalletRiskEvaluator) :
  (forall tx, 5 <= _evaluate_tx ev tx <= 70
              /\ exists k, _evaluate_tx ev tx = 5 * k)
  /\ Z.min 100 (5 * Z.of_nat (List.length (transactions ev))) <= evaluate ev
  /\ evaluate ev <= Z.min 100 (70 * Z.of_nat (List.length (transactions ev)))
  /\ ((20 <= List.length (transactions ev))%nat -> evaluate ev = 100).
Proof.
  pose proof (oracle_scores_sum_lower ev (transactions ev)) as Hlo.
  pose proof (oracle_scores_sum_upper ev (transactions ev)) as Hhi.
  unfold evaluate. rewrite oracle_score_loop_sum.
  split; [|repeat split; lia].
  intros tx. split.
  - split; [apply oracle_score_at_least_5 | apply oracle_score_at_most_70].
  - unfold _evaluate_tx, risk_points.
    destruct (rule1 tx), (rule2 tx), (_is_high_frequency ev tx), (rule4 tx);
      simpl;
      match goal with |- exists k, ?n = _ => exists (n / 5); reflexivity end.
Qed.

Lemma oracle_evaluate_range_witness :
  evaluate (mkEvaluator (same_time_batch 0 20)) = 100.
Proof.
  apply (proj2 (proj2 (proj2
           (oracle_evaluate_range (mkEvaluator (same_time_batch 0 20)))))).
  cbn [transactions]. rewrite same_time_batch_length. lia.
Defined.

Lemma filter_length_lt {A : Type} (f : A -> bool) (l : list A) (x : A) :
  In x l -> f x = false ->
  (List.length (filter f l) < List.length l)%nat.
Proof.
  induction l as [|y l IH]; simpl; intros Hin Hf; [contradiction|].
  pose proof (filter_length_le f l).
  destruct Hin as [-> | Hin].
  - rewrite Hf. lia.
  - specialize (IH Hin Hf). destruct (f y); simpl; lia.
Qed.

Lemma counts_for_is_not (tx : TxObj) (t : Z) (l : list TxObj) :
  (List.length (filter (counts_for tx t) l)
   <= List.length (filter (fun o => is_not o tx) l))%nat.
Proof.
  induction l as [|o l IH]; simpl; [lia|].
  unfold counts_for at 1.
  destruct (is_not o tx); simpl; [|assumption].
  destruct (match d_timestamp (fields o) with
            | Some t' => within_minute t t'
            | None => false
            end); simpl; lia.
Qed.

(** X15. In a list of at most three entries the high-frequency rule never
    holds for an entry of the list, which then scores the points of the
    three other rules, or 5 when there are none. *)
Theorem high_frequency_needs_four (txs : list TxObj) (tx : TxObj) :
  In tx txs ->
  (List.length txs <= 3)%nat ->
  _is_high_frequency (mkEvaluator txs) tx = false
  /\ _evaluate_tx (mkEvaluator txs) tx
     = (if base_points tx =? 0 then 5 else base_points tx).
Proof.
  intros Hin Hlen.
  assert (Hhf : _is_high_frequency (mkEvaluator txs) tx = false).
  { unfold _is_high_frequency. simpl.
    destruct (d_timestamp (fields tx)) as [t|]; [|reflexivity].
    rewrite count_loop_filter. apply Z.leb_gt.
    pose proof (counts_for_is_not tx t txs).
    assert (Hself : is_not tx tx = false)
      by (unfold is_not; now rewrite Nat.eqb_refl).
    pose proof (filter_length_lt (fun o => is_not o tx) txs tx Hin Hself).
    lia. }
  split; [exact Hhf|].
  unfold _evaluate_tx, risk_points, base_points. rewrite Hhf.
  destruct (rule1 tx), (rule2 tx), (rule4 tx); reflexivity.
Qed.

Lemma high_frequency_needs_four_witness :
  _is_high_frequency (mkEvaluator (same_time_batch 0 3))
                     (mkTxObj 1 (mkTxDict None None None (Some 0)))
  = false.
Proof.
  apply (high_frequency_needs_four
           (same_time_batch 0 3)
           (mkTxObj 1 (mkTxDict None None None (Some 0)))).
  - simpl. auto.
  - simpl. lia.
Defined.

(** *** Only differences of timestamps matter *)

Lemma within_minute_shift (delta t t' : Z) :
  within_minute (t + delta) (t' + delta) = within_minute t t'.
Proof.
  unfold within_minute. f_equal. f_equal. lia.
Qed.

Lemma counts_for_shift (delta t : Z) (tx o : TxObj) :
  counts_for (shift_time delta tx) (t + delta) (shift_time delta o)
  = counts_for tx t o.
Proof.
  unfold counts_for, is_not, shift_time. simpl.
  destruct (d_timestamp (fields o)) as [t'|]; simpl; [|reflexivity].
  now rewrite within_minute_shift.
Qed.

Lemma filter_map_length {A B : Type} (f : B -> bool) (g : A -> B)
    (l : list A) :
  List.length (filter f (map g l))
  = List.length (filter (fun x => f (g x)) l).
Proof.
  induction l as [|x l IH]; simpl; [reflexivity|].
  destruct (f (g x)); simpl; now rewrite IH.
Qed.

Lemma _is_high_frequency_shift (delta : Z) (txs : list TxObj) (tx : TxObj) :
  _is_high_frequency (mkEvaluator (map (shift_time delta) txs))
                     (shift_time delta tx)
  = _is_high_frequency (mkEvaluator txs) tx.
Proof.
  unfold _is_high_frequency. simpl.
  destruct (d_timestamp (fields tx)) as [t|]; simpl; [|reflexivity].
  rewrite !count_loop_filter, filter_map_length.
  rewrite (filter_ext _ (counts_for tx t)); [reflexivity|].
  intros o. apply counts_for_shift.
Qed.

Lemma oracle_score_shift (delta : Z) (txs : list TxObj) (tx : TxObj) :
  _evaluate_tx (mkEvaluator (map (shift_time delta) txs)) (shift_time delta tx)
  = _evaluate_tx (mkEvaluator txs) tx.
Proof.
  unfold _evaluate_tx, risk_points. rewrite _is_high_frequency_shift.
  reflexivity.
Qed.

Lemma oracle_evaluate_shift (delta : Z) (txs : list TxObj) :
  evaluate (mkEvaluator (map (shift_time delta) txs))
  = evaluate (mkEvaluator txs).
Proof.
  unfold evaluate. rewrite !oracle_score_loop_sum. simpl transactions.
  rewrite map_map. f_equal. f_equal. f_equal.
  apply map_ext. intros tx. apply oracle_score_shift.
Qed.

(** X16. Moving every timestamp of the list by the same amount changes neither
    the high-frequency rule, nor a score, nor the result of [evaluate]. *)
Theorem evaluate_time_shift_invariant (delta : Z) (txs : list TxObj) :
  (forall tx,
     _is_high_frequency (mkEvaluator (map (shift_time delta) txs))
                        (shift_time delta tx)
     = _is_high_frequency (mkEvaluator txs) tx)
  /\ all_scores (mkEvaluator (map (shift_time delta) txs))
     = all_scores (mkEvaluator txs)
  /\ evaluate (mkEvaluator (map (shift_time delta) txs))
     = evaluate (mkEvaluator txs).
Proof.
  split; [|split].
  - intros tx. apply _is_high_frequency_shift.
  - unfold all_scores. simpl transactions. rewrite map_map.
    apply map_ext. intros tx. apply oracle_score_shift.
  - apply oracle_evaluate_shift.
Qed.

(** *** The demo *)

Lemma is_datetime_spec (t : Z) :
  is_datetime t = true <-> 0 <= t < datetime_end.
Proof.
  unfold is_datetime. rewrite andb_true_iff, Z.leb_le, Z.ltb_lt. tauto.
Qed.

Lemma add_timedelta_ok (t delta : Z) :
  0 <= t + delta < datetime_end -> add_timedelta t delta = Ok (t + delta).
Proof.
  intros H. unfold add_timedelta.
  now rewrite (proj2 (is_datetime_spec _) H).
Qed.

Lemma sample_display_shift (base_time : Z) :
  sample_display base_time (base_time + seconds 5) (base_time + seconds 10)
                 (base_time + seconds 20) (base_time + seconds 40)
                 (base_time + seconds 55)
  = map (shift_time base_time)
        (sample_display 0 (seconds 5) (seconds 10) (seconds 20) (seconds 40)
                        (seconds 55)).
Proof.
  unfold sample_display. cbn [map]. unfold shift_time.
  cbn [oid fields d_amount d_type d_destination d_timestamp option_map].
  replace (0 + base_time) with base_time by lia.
  replace (seconds 5 + base_time) with (base_time + seconds 5) by lia.
  replace (seconds 10 + base_time) with (base_time + seconds 10) by lia.
  replace (seconds 20 + base_time) with (base_time + seconds 20) by lia.
  replace (seconds 40 + base_time) with (base_time + seconds 40) by lia.
  replace (seconds 55 + base_time) with (base_time + seconds 55) by lia.
  reflexivity.
Qed.

(** X17. For a [datetime.now()] at least 55 seconds before the end of the
    range of [datetime], the six sample transactions score 30, 10, 50, 55,
    10 and 35 (all lie within 55 seconds, so the high-frequency rule holds
    for each) and the demo prints 100, whatever the time; in the last 55
    seconds of the range [sample_transactions] raises [OverflowError]. *)
Theorem oracle_demo_score (base_time : Z) :
  is_datetime base_time = true ->
  (base_time + seconds 55 < datetime_end ->
     exists data,
       sample_transactions base_time = Ok data
       /\ all_scores (mkEvaluator data) = [30; 10; 50; 55; 10; 35]
       /\ main base_time = Ok 100)
  /\ (datetime_end <= base_time + seconds 55 ->
      sample_transactions base_time = Raise OverflowError
      /\ main base_time = Raise OverflowError).
Proof.
  intros Hb. apply is_datetime_spec in Hb. split.
  - intros Hend.
    assert (Hs : sample_transactions base_time
                 = Ok (map (shift_time base_time)
                           (sample_display 0 (seconds 5) (seconds 10)
                              (seconds 20) (seconds 40) (seconds 55)))).
    { unfold sample_transactions.
      rewrite !add_timedelta_ok by (unfold seconds in *; lia).
      cbn [bind]. f_equal. apply sample_display_shift. }
    eexists. split; [exact Hs|]. split.
    + unfold all_scores. cbn [transactions]. rewrite map_map.
      rewrite (map_ext _ (_evaluate_tx
                            (mkEvaluator
                               (sample_display 0 (seconds 5) (seconds 10)
                                  (seconds 20) (seconds 40) (seconds 55)))))
        by (intros tx; apply oracle_score_shift).
      reflexivity.
    + unfold main. rewrite Hs. unfold __init__. cbn [bind]. f_equal.
      rewrite oracle_evaluate_shift. reflexivity.
  - intros Hend.
    assert (Hs : sample_transactions base_time = Raise OverflowError).
    { unfold sample_transactions, add_timedelta.
      assert (H55 : is_datetime (base_time + seconds 55) = false).
      { destruct (is_datetime (base_time + seconds 55)) eqn:E; [|reflexivity].
        apply is_datetime_spec in E. lia. }
      rewrite H55.
      destruct (is_datetime (base_time + seconds 5)); [|reflexivity].
      destruct (is_datetime (base_time + seconds 10)); [|reflexivity].
      destruct (is_datetime (base_time + seconds 20)); [|reflexivity].
      destruct (is_datetime (base_time + seconds 40)); reflexivity. }
    split; [exact Hs|]. unfold main. now rewrite Hs.
Qed.

Lemma oracle_demo_score_witness : main 0 = Ok 100.
Proof.
  destruct (oracle_demo_score 0) as [H _]; [reflexivity|].
  destruct H as (data & _ & _ & Hm); [reflexivity | exact Hm].
Defined.

End OracleInsightMore.

(** * The sample-data generators and the demos *)

Section Generators.

Lemma proxy_sample_loop_length (R : PyRandom) (n : nat) :
  forall r, List.length (ProxyResolverDemo.sample_loop R r n) = n.
Proof.
  induction n as [|n IH]; intros r; simpl; [reflexivity|].
  destruct (randint R r 100 20000) as [a r1].
  destruct (choice R r1 ["in"; "out"]) as [ty r2].
  destruct (choice R r2 ["known_wallet"; "unknown_wallet"; "unknown_abc"])
    as [d r3].
  simpl. now rewrite IH.
Qed.

Lemma proxy_sample_loop_records (R : PyRandom) (n : nat) :
  random_contract R ->
  forall r,
    Forall (fun t =>
              exists a ty d,
                t = mkTxDict (Some (inject_Z a)) (Some ty) (Some d) None
                /\ 100 <= a <= 20000
                /\ (ty = "in" \/ ty = "out")
                /\ (d = "known_wallet" \/ d = "unknown_wallet"
                    \/ d = "unknown_abc"))
           (ProxyResolverDemo.sample_loop R r n).
Proof.
  intros [Hint Hch]. induction n as [|n IH]; intros r; simpl; [constructor|].
  pose proof (Hint r 100 20000 ltac:(lia)) as Ha.
  destruct (randint R r 100 20000) as [a r1].
  pose proof (Hch r1 ["in"; "out"] ltac:(discriminate)) as Hty.
  destruct (choice R r1 ["in"; "out"]) as [ty r2].
  pose proof (Hch r2 ["known_wallet"; "unknown_wallet"; "unknown_abc"]
                  ltac:(discriminate)) as Hd.
  destruct (choice R r2 ["known_wallet"; "unknown_wallet"; "unknown_abc"])
    as [d r3].
  simpl in Ha, Hty, Hd. constructor; [|apply IH].
  exists a, ty, d. repeat split; try lia.
  - destruct Hty as [<- | [<- | []]]; auto.
  - destruct Hd as [<- | [<- | [<- | []]]]; auto.
Qed.

(** X18. [generate_sample_data(n, seed)] of [proxy_resolver.py] returns
    [max(n, 0)] dictionaries; with a generator that keeps the promises of
    [random], each has the three keys and no timestamp, an integer amount
    from 100 to 20000, the type [in] or [out], and one of the three listed
    destinations, and sanitising it changes none of its three values. *)
Theorem generate_sample_data_shape (R : PyRandom) (n seed : Z) :
  random_contract R ->
  List.length (ProxyResolverDemo.generate_sample_data R n seed) = Z.to_nat n
  /\ Forall (fun t =>
               exists a ty d,
                 t = mkTxDict (Some (inject_Z a)) (Some ty) (Some d) None
                 /\ 100 <= a <= 20000
                 /\ (ty = "in" \/ ty = "out")
                 /\ (d = "known_wallet" \/ d = "unknown_wallet"
                     \/ d = "unknown_abc")
                 /\ ProxyResolver.sanitize t
                    = Ok (ProxyResolver.mkTx (inject_Z a) ty d))
            (ProxyResolverDemo.generate_sample_data R n seed).
Proof.
  intros HR. unfold ProxyResolverDemo.generate_sample_data. split.
  - apply proxy_sample_loop_length.
  - eapply Forall_impl; [|apply (proxy_sample_loop_records R _ HR)].
    intros t (a & ty & d & -> & Ha & Hty & Hd).
    exists a, ty, d. repeat split; try lia; try assumption.
    unfold ProxyResolver.sanitize. cbn [get d_amount d_type d_destination].
    rewrite py_float_int_exact by lia.
    destruct Hty as [-> | ->]; reflexivity.
Qed.

Lemma first_choice_random_contract : random_contract first_choice_random.
Proof.
  split.
  - intros g a b Hab. simpl. lia.
  - intros g [|x l] Hne; [congruence | simpl; auto].
Qed.

Lemma generate_sample_data_shape_witness :
  List.length (ProxyResolverDemo.generate_sample_data first_choice_random 3 42)
  = 3%nat.
Proof.
  apply (generate_sample_data_shape first_choice_random 3 42).
  apply first_choice_random_contract.
Defined.

Lemma sanitize_all_length (raws : list TxDict) (txs : list ProxyResolver.Tx) :
  ProxyResolver.sanitize_all raws = Ok txs ->
  List.length txs = List.length raws.
Proof.
  revert txs. induction raws as [|t rest IH]; simpl; intros txs H.
  - now injection H as <-.
  - destruct (ProxyResolver.sanitize t); simpl in H; [|discriminate].
    destruct (ProxyResolver.sanitize_all rest) as [txs'|]; simpl in H;
      [|discriminate].
    injection H as <-. simpl. now rewrite (IH txs' eq_refl).
Qed.

Lemma sanitize_all_samples (raws : list TxDict) :
  Forall (fun t =>
            exists a ty d,
              t = mkTxDict (Some (inject_Z a)) (Some ty) (Some d) None
              /\ 100 <= a <= 20000
              /\ (ty = "in" \/ ty = "out")
              /\ (d = "known_wallet" \/ d = "unknown_wallet"
                  \/ d = "unknown_abc")) raws ->
  exists txs, ProxyResolver.sanitize_all raws = Ok txs.
Proof.
  induction 1 as [|t rest (a & ty & d & -> & Ha & _) _ (txs & IH)]; simpl.
  - eauto.
  - unfold ProxyResolver.sanitize. cbn [get d_amount d_type d_destination].
    rewrite py_float_int_exact by lia. simpl. rewrite IH. simpl. eauto.
Qed.

Lemma proxy_main_outcome (R : PyRandom) (txs : list ProxyResolver.Tx) :
  ProxyResolver.sanitize_all
    (ProxyResolverDemo.generate_sample_data R 10 42) = Ok txs ->
  exists s, ProxyResolverDemo.main R = Ok s /\ 50 <= s <= 100.
Proof.
  intros Hs. unfold ProxyResolverDemo.main, ProxyResolver.__init__.
  assert (Et : py_float
                 (ProxyResolver.cfg_large_out_threshold
                    ProxyResolver.default_config) = Ok (10000 # 1))
    by (vm_compute; reflexivity).
  rewrite Et, Hs. cbn [bind].
  eexists. split; [reflexivity|].
  change (ProxyResolver.mkEvaluator _ _ _ _ _ txs)
    with (ProxyResolver.evaluator_of ProxyResolver.default_config txs).
  set (ev := ProxyResolver.evaluator_of _ _).
  unfold ProxyResolver.evaluate.
  rewrite evaluate_loop_clamped_sum
    by (unfold ProxyResolver.nonneg_scores; simpl; lia).
  assert (Hsum : 5 * Z.of_nat (List.length (ProxyResolver.transactions ev))
                 <= sumZ (map (ProxyResolver._evaluate_tx ev)
                              (ProxyResolver.transactions ev)))
    by (apply (scores_sum_at_least ev); simpl; lia).
  assert (Hlen : List.length (ProxyResolver.transactions ev) = 10%nat).
  { unfold ev. cbn [ProxyResolver.transactions ProxyResolver.evaluator_of].
    rewrite (sanitize_all_length _ _ Hs).
    apply (proxy_sample_loop_length R 10). }
  rewrite Hlen in Hsum. change (Z.of_nat 10) with 10 in Hsum.
  change (ProxyResolver.max_score ev) with 100. lia.
Qed.

(** X19. With a generator that keeps the promises of [random], the demo
    of [proxy_resolver.py] prints a score from 50 to 100: ten transactions
    score at least 5 each. Whatever the generator draws, a score that is
    printed is from 50 to 100, and the only exception that can end the
    demo is the [OverflowError] of [float]. *)
Theorem proxy_demo_score_range (R : PyRandom) :
  (random_contract R ->
     exists s, ProxyResolverDemo.main R = Ok s /\ 50 <= s <= 100)
  /\ (forall s, ProxyResolverDemo.main R = Ok s -> 50 <= s <= 100)
  /\ (forall e, ProxyResolverDemo.main R = Raise e -> e = OverflowError).
Proof.
  split; [|split].
  - intros HR.
    destruct (sanitize_all_samples
                (ProxyResolverDemo.generate_sample_data R 10 42))
      as (txs & Hs).
    { apply (proxy_sample_loop_records R _ HR). }
    now apply (proxy_main_outcome R txs).
  - intros s Hm.
    destruct (ProxyResolver.sanitize_all
                (ProxyResolverDemo.generate_sample_data R 10 42))
      as [txs|e] eqn:Hs.
    + destruct (proxy_main_outcome R txs Hs) as (s' & Hm' & Hr).
      rewrite Hm in Hm'. now injection Hm' as ->.
    + unfold ProxyResolverDemo.main, ProxyResolver.__init__ in Hm.
      rewrite Hs in Hm.
      destruct (py_float _) in Hm; discriminate.
  - intros e. unfold ProxyResolverDemo.main.
    destruct (ProxyResolver.__init__ _ _) as [ev|e'] eqn:Hi; simpl;
      [discriminate|].
    intros H. injection H as <-.
    unfold ProxyResolver.__init__ in Hi.
    destruct (py_float _) as [thr|e1] eqn:Et in Hi; simpl in Hi.
    + destruct (ProxyResolver.sanitize_all _) as [txs|e2] eqn:Es in Hi;
        simpl in Hi; [discriminate|].
      injection Hi as <-. now apply (sanitize_all_raises _ _ Es).
    + injection Hi as <-. now apply (py_float_raises _ _ Et).
Qed.

(** Without the promise of [randint] the demo can end in the
    [OverflowError] of [float]. *)
Remark proxy_demo_needs_contract :
  ProxyResolverDemo.main huge_draw_random = Raise OverflowError.
Proof. vm_compute. reflexivity. Qed.

Lemma proxy_demo_score_range_witness :
  exists s, ProxyResolverDemo.main first_choice_random = Ok s
            /\ 50 <= s <= 100.
Proof.
  apply (proj1 (proxy_demo_score_range first_choice_random)).
  apply first_choice_random_contract.
Defined.

Lemma bot_sample_loop_complete (R : PyRandom) (n : nat) :
  forall r,
    forallb BotDetector.complete (BotDetectorDemo.sample_loop R r n) = true
    /\ List.length (BotDetectorDemo.sample_loop R r n) = n.
Proof.
  induction n as [|n IH]; intros r; simpl; [auto|].
  destruct (randint R r 100 20000) as [a r1].
  destruct (choice R r1 ["in"; "out"]) as [ty r2].
  destruct (choice R r2 ["known_wallet"; "unknown_wallet"]) as [d r3].
  simpl. destruct (IH r3) as [-> ->]. auto.
Qed.

(** X20. The demo of [bot_detector.py] never ends in a [KeyError]: every
    generated dictionary has the three keys that are indexed, and the
    score printed is from 50 to 100, whatever the generator draws. *)
Theorem bot_demo_never_raises (R : PyRandom) (r : rng R) :
  forallb BotDetector.complete (BotDetectorDemo.generate_sample_data R r) = true
  /\ exists s, BotDetectorDemo.main R r = Ok s /\ 50 <= s <= 100.
Proof.
  destruct (bot_sample_loop_complete R 10 r) as [Hc Hlen].
  split; [exact Hc|].
  unfold BotDetectorDemo.main, BotDetector.__init__, BotDetector.evaluate.
  simpl bind. unfold BotDetectorDemo.generate_sample_data.
  cbn [BotDetector.transactions].
  destruct (bot_score_loop_complete _ Hc 0) as (total & -> & Hle).
  rewrite Hlen in Hle. simpl. eexists. split; [reflexivity | lia].
Qed.

(** *** The generated classes *)

Lemma lookup_fold_preserved {A : Type}
    (body : nat -> list (string * A) -> list (string * A))
    (name : string) (l : list nat) :
  (forall i d, In i l ->
     ProxyResolverDemo.lookup name (body i d)
     = ProxyResolverDemo.lookup name d) ->
  forall d,
    ProxyResolverDemo.lookup name (fold_left (fun g i => body i g) l d)
    = ProxyResolverDemo.lookup name d.
Proof.
  induction l as [|a l IH]; intros Hb d; simpl; [reflexivity|].
  rewrite IH by (intros i d' Hi; apply Hb; now right).
  apply Hb. now left.
Qed.

Lemma lookup_setitem_other {A : Type} (name k : string) (v : A)
    (d : list (string * A)) :
  name <> k ->
  ProxyResolverDemo.lookup name (ProxyResolverDemo.setitem k v d)
  = ProxyResolverDemo.lookup name d.
Proof.
  intros Hne. simpl. now destruct (String.eqb_spec name k).
Qed.

(** X21. After the two loops, for every [i] below 30 the name
    [SimulatedClass<i>] is bound to a class whose [method_<i>] returns
    [2*i], and for every [i] from 30 to 59 the name [ModuleLogic<i>] is
    bound to a class whose [run_<i>] returns the text [module-<i>]: no
    generated class overwrites another. The loops leave [i] bound to 59,
    [cls] to the class [ModuleLogic59] and [attrs] to its dictionary, and
    [_make_method] and [_make_run] to the two functions; every name that
    is neither one of these five nor the name of a generated class keeps
    the binding it had. *)
Theorem generated_classes_answer
    (globals : list (string * ProxyResolverDemo.pyobject)) :
  (forall i, (i < 30)%nat ->
     ProxyResolverDemo.call_method
       (ProxyResolverDemo.generate_classes globals)
       ("SimulatedClass" ++ ProxyResolverDemo.str_of_nat i)
       ("method_" ++ ProxyResolverDemo.str_of_nat i)
     = Some (ProxyResolverDemo.PyInt (Z.of_nat i * 2)))
  /\ (forall i, (30 <= i < 60)%nat ->
        ProxyResolverDemo.call_method
          (ProxyResolverDemo.generate_classes globals)
          ("ModuleLogic" ++ ProxyResolverDemo.str_of_nat i)
          ("run_" ++ ProxyResolverDemo.str_of_nat i)
        = Some (ProxyResolverDemo.PyStr
                  ("module-" ++ ProxyResolverDemo.str_of_nat i)))
  /\ (ProxyResolverDemo.lookup "i" (ProxyResolverDemo.generate_classes globals)
      = Some (ProxyResolverDemo.ObjInt 59)
      /\ ProxyResolverDemo.lookup "cls"
           (ProxyResolverDemo.generate_classes globals)
         = Some (ProxyResolverDemo.ObjClass
                   (ProxyResolverDemo.mkPyClass
                      "ModuleLogic59"
                      [("run_59", ProxyResolverDemo._make_run 59)]))
      /\ ProxyResolverDemo.lookup "attrs"
           (ProxyResolverDemo.generate_classes globals)
         = Some (ProxyResolverDemo.ObjDict
                   [("run_59", ProxyResolverDemo._make_run 59)])
      /\ ProxyResolverDemo.lookup "_make_method"
           (ProxyResolverDemo.generate_classes globals)
         = Some (ProxyResolverDemo.ObjDef "_make_method")
      /\ ProxyResolverDemo.lookup "_make_run"
           (ProxyResolverDemo.generate_classes globals)
         = Some (ProxyResolverDemo.ObjDef "_make_run"))
  /\ (forall name,
        ~ In name ProxyResolverDemo.loop_names ->
        (forall i, (i < 30)%nat ->
           name <> ("SimulatedClass" ++ ProxyResolverDemo.str_of_nat i)%string) ->
        (forall i, (30 <= i < 60)%nat ->
           name <> ("ModuleLogic" ++ ProxyResolverDemo.str_of_nat i)%string) ->
        ProxyResolverDemo.lookup name (ProxyResolverDemo.generate_classes globals)
        = ProxyResolverDemo.lookup name globals).
Proof.
  split; [|split; [|split]].
  - intros i Hi.
    do 30 (destruct i as [|i]; [vm_compute; reflexivity|]). lia.
  - intros i Hi.
    do 30 (destruct i as [|i]; [lia|]).
    do 30 (destruct i as [|i]; [vm_compute; reflexivity|]). lia.
  - repeat split; vm_compute; reflexivity.
  - intros name Hloop H1 H2.
    assert (Hn : name <> "i" /\ name <> "_make_method" /\ name <> "_make_run"
                 /\ name <> "attrs" /\ name <> "cls").
    { unfold ProxyResolverDemo.loop_names in Hloop. simpl in Hloop.
      repeat split; intros ->; apply Hloop; auto 6. }
    destruct Hn as (Hi & Hmm & Hmr & Ha & Hc).
    unfold ProxyResolverDemo.generate_classes.
    rewrite (lookup_fold_preserved ProxyResolverDemo.define_module_logic).
    + apply (lookup_fold_preserved ProxyResolverDemo.define_simulated).
      intros i d Hin. apply in_seq in Hin.
      unfold ProxyResolverDemo.define_simulated.
      cbn [ProxyResolverDemo.c_name].
      rewrite !lookup_setitem_other; auto; apply H1; lia.
    + intros i d Hin. apply in_seq in Hin.
      unfold ProxyResolverDemo.define_module_logic.
      cbn [ProxyResolverDemo.c_name].
      rewrite !lookup_setitem_other; auto; apply H2; lia.
Qed.

Lemma generated_classes_answer_witness :
  ProxyResolverDemo.call_method (ProxyResolverDemo.generate_classes [])
                                "SimulatedClass7" "method_7"
  = Some (ProxyResolverDemo.PyInt 14)
  /\ ProxyResolverDemo.call_method (ProxyResolverDemo.generate_classes [])
                                   "ModuleLogic42" "run_42"
     = Some (ProxyResolverDemo.PyStr "module-42").
Proof.
  destruct (generated_classes_answer []) as (Hs & Hm & _).
  split.
  - apply (Hs 7%nat). lia.
  - apply (Hm 42%nat). lia.
Defined.

End Generators.
